(** * webapi: session manager, element extraction and blocked-page judgment

    A shallow embedding of the browser module ([browser.ts], in its current
    single-query form and in its older per-selector form) and of the
    [/scan-screenshot] handler of [index.ts], with the properties the
    specification states about them.

    Conventions of the embedding.
    - A JavaScript string is a [string]: a sequence of code units below 256.
      All literals of the source are ASCII.
    - [undefined] and [null] are [None]; the idiom [v || undefined] is
      [or_undefined], [v || d] with a string default is [or_else].
    - A [DOMRect] holds rationals; comparisons are the exact ones.
    - The rendering engine is outside the program.  A page is the snapshot the
      engine exposes to the in-page functions: the elements in document order
      with their attributes, text, geometry and the answer the engine gives
      when asked whether the element is visible. *)

From Stdlib Require Import List String Ascii Bool Arith ZArith QArith Qround Qminmax.
From Stdlib Require Import Lia Lqa DecimalString.
From Stdlib Require DecimalNat DecimalFacts.
Import ListNotations.

Local Open Scope string_scope.
Local Open Scope list_scope.

(* ===================================================================== *)
(** ** JavaScript string primitives *)
(* ===================================================================== *)

Module JS.

(** Truthiness of a [string | undefined | null] value. *)
Definition truthy (v : option string) : bool :=
  match v with
  | Some s => negb (s =? EmptyString)
  | None => false
  end.

(** [v || undefined] *)
Definition or_undefined (v : option string) : option string :=
  if truthy v then v else None.

(** [v || d] for a string default [d] *)
Definition or_else (v : option string) (d : string) : string :=
  match v with
  | Some s => if s =? EmptyString then d else s
  | None => d
  end.

(** [v || d] with the empty string as default *)
Definition or_empty (v : option string) : string := or_else v EmptyString.

Definition code (c : ascii) : nat := nat_of_ascii c.

Definition between (lo hi n : nat) : bool := Nat.leb lo n && Nat.leb n hi.

(** [String.prototype.toLowerCase] on one code unit below 256. *)
Definition lower_char (c : ascii) : ascii :=
  let n := code c in
  if between 65 90 n then ascii_of_nat (n + 32)
  else if between 192 222 n && negb (Nat.eqb n 215) then ascii_of_nat (n + 32)
  else c.

Fixpoint toLowerCase (s : string) : string :=
  match s with
  | EmptyString => EmptyString
  | String c r => String (lower_char c) (toLowerCase r)
  end.

(** The canonicalisation a non-unicode [/i] regular expression applies to a
    code unit before comparing (upper-casing).  The two code units below 256
    whose upper case lies above 255 are left alone: their images differ from
    every other image, so comparisons are not affected. *)
Definition canonicalize (c : ascii) : ascii :=
  let n := code c in
  if between 97 122 n then ascii_of_nat (n - 32)
  else if between 224 254 n && negb (Nat.eqb n 247) then ascii_of_nat (n - 32)
  else c.

(** White space of [trim] and of the class [\s], below 256:
    TAB, LF, VT, FF, CR, SP and NBSP. *)
Definition isWhiteSpace (c : ascii) : bool :=
  let n := code c in between 9 13 n || Nat.eqb n 32 || Nat.eqb n 160.

Fixpoint trimStart (s : string) : string :=
  match s with
  | EmptyString => EmptyString
  | String c r => if isWhiteSpace c then trimStart r else s
  end.

Fixpoint trimEnd (s : string) : string :=
  match s with
  | EmptyString => EmptyString
  | String c r =>
      let r' := trimEnd r in
      if isWhiteSpace c && (r' =? EmptyString) then EmptyString else String c r'
  end.

Definition trim (s : string) : string := trimEnd (trimStart s).

(** [s.replace(/\s+/g, ' ')]: [inrun] tells that the previous code unit was
    white space, already replaced. *)
Fixpoint collapse (inrun : bool) (s : string) : string :=
  match s with
  | EmptyString => EmptyString
  | String c r =>
      if isWhiteSpace c
      then if inrun then collapse true r else String " " (collapse true r)
      else String c (collapse false r)
  end.

Definition replace_ws_runs (s : string) : string := collapse false s.

(** [s.substring(0, n)] *)
Fixpoint substring0 (n : nat) (s : string) : string :=
  match n, s with
  | O, _ => EmptyString
  | _, EmptyString => EmptyString
  | S k, String c r => String c (substring0 k r)
  end.

(** Decimal rendering of an array index inside a template literal. *)
Definition nat_to_string (n : nat) : string :=
  NilZero.string_of_uint (Nat.to_uint n).

(** [Math.round]: the nearest integer, halves towards plus infinity. *)
Definition round (q : Q) : Z := Qfloor (q + (1 # 2)).

(** [a > b] and [a < b] on numbers. *)
Definition gt (a b : Q) : bool := negb (Qle_bool a b).
Definition lt (a b : Q) : bool := negb (Qle_bool b a).

(** [arr.map((e, i) => f(i, e))] *)
Fixpoint mapi_from {A B} (i : nat) (f : nat -> A -> B) (l : list A) : list B :=
  match l with
  | [] => []
  | a :: r => f i a :: mapi_from (S i) f r
  end.

Definition mapi {A B} (f : nat -> A -> B) (l : list A) : list B :=
  mapi_from 0 f l.

(** [arr.filter(Boolean)] over results that are a record or [null]. *)
Fixpoint filter_Boolean {A} (l : list (option A)) : list A :=
  match l with
  | [] => []
  | Some a :: r => a :: filter_Boolean r
  | None :: r => filter_Boolean r
  end.

(** Lookup in a [Record<string, string>]. *)
Fixpoint prop (k : string) (o : list (string * string)) : option string :=
  match o with
  | [] => None
  | (k', v) :: r => if k' =? k then Some v else prop k r
  end.

End JS.

(* ===================================================================== *)
(** ** The page as the engine exposes it *)
(* ===================================================================== *)

Record DOMRect := mkRect {
  rect_left : Q;
  rect_top : Q;
  rect_width : Q;
  rect_height : Q
}.

Definition rect_right (r : DOMRect) : Q := (rect_left r + rect_width r)%Q.
Definition rect_bottom (r : DOMRect) : Q := (rect_top r + rect_height r)%Q.

Record Element := mkElement {
  tagName : string;                       (* as the DOM reports it *)
  domAttributes : list (string * string); (* content attributes *)
  textContent : option string;
  typeProperty : option string;           (* the IDL property [type] *)
  boundingClientRect : DOMRect;
  reportsVisible : bool;                  (* what [el.isVisible()] resolves to *)
  handleThrows : bool                     (* evaluating on its handle throws *)
}.

Record Page := mkPage {
  document : list Element;                (* document order *)
  innerWidth : Q;
  innerHeight : Q
}.

Definition getAttribute (a : string) (e : Element) : option string :=
  JS.prop a (domAttributes e).

(** [el.isVisible()]: the engine decides (from style, from the box of the
    element or of what it renders), the program only reads the answer. *)
Definition isVisible (e : Element) : bool := reportsVisible e.

(** *** The selectors the program uses *)

Inductive SimpleSelector :=
| SelTag (t : string)                (* [t] *)
| SelHas (a : string)                (* [[a]] *)
| SelAttr (a v : string)             (* [[a="v"]] *)
| SelNotAttr (a v : string).         (* [:not([a="v"])] *)

Definition Compound := list SimpleSelector.
Definition SelectorList := list Compound.

(** In an HTML document the value of [type] is compared without case. *)
Definition attr_value_is (a v : string) (e : Element) : bool :=
  match getAttribute a e with
  | Some x => if a =? "type" then JS.toLowerCase x =? JS.toLowerCase v else x =? v
  | None => false
  end.

Definition matches_simple (s : SimpleSelector) (e : Element) : bool :=
  match s with
  | SelTag t => JS.toLowerCase (tagName e) =? t
  | SelHas a => match getAttribute a e with Some _ => true | None => false end
  | SelAttr a v => attr_value_is a v e
  | SelNotAttr a v => negb (attr_value_is a v e)
  end.

Definition matches_compound (c : Compound) (e : Element) : bool :=
  forallb (fun s => matches_simple s e) c.

Definition matches (sel : SelectorList) (e : Element) : bool :=
  existsb (fun c => matches_compound c e) sel.

(** [querySelectorAll]: the matching elements, each once, in document
    order. *)
Definition querySelectorAll (sel : SelectorList) (p : Page) : list Element :=
  filter (matches sel) (document p).

(** The seven categories of the interactive taxonomy. *)
Definition sel_button : Compound := [SelTag "button"].
Definition sel_link : Compound := [SelTag "a"; SelHas "href"].
Definition sel_input : Compound := [SelTag "input"; SelNotAttr "type" "hidden"].
Definition sel_textarea : Compound := [SelTag "textarea"].
Definition sel_select : Compound := [SelTag "select"].
Definition sel_role_button : Compound := [SelAttr "role" "button"].
Definition sel_tabindex : Compound := [SelHas "tabindex"; SelNotAttr "tabindex" "-1"].

(** ['button, a[href], input:not([type="hidden"]), textarea, select,
     [role="button"], [tabindex]:not([tabindex="-1"])'] *)
Definition INTERACTIVE_SELECTOR : SelectorList :=
  [sel_button; sel_link; sel_input; sel_textarea; sel_select;
   sel_role_button; sel_tabindex].

(** ['a, button, input, textarea, select, [role="button"], [onclick],
     h1, h2, h3, p, div, span'] *)
Definition FALLBACK_SELECTOR : SelectorList :=
  [[SelTag "a"]; [SelTag "button"]; [SelTag "input"]; [SelTag "textarea"];
   [SelTag "select"]; [SelAttr "role" "button"]; [SelHas "onclick"];
   [SelTag "h1"]; [SelTag "h2"]; [SelTag "h3"]; [SelTag "p"]; [SelTag "div"];
   [SelTag "span"]].

(* ===================================================================== *)
(** ** Extracted records *)
(* ===================================================================== *)

Inductive Action := click | input | submit | none.

Record BBox := mkBBox { x : Z; y : Z; width : Z; height : Z }.

(** What the in-page projection returns for one element. *)
Record RawElement := mkRaw {
  id : string;
  tag : string;
  type : option string;
  name : option string;
  placeholder : option string;
  text : option string;
  href : option string;
  action : Action;
  bbox : option BBox;
  confidence : option Q;
  attributes : list (string * string)
}.

(** [{ ...element, selector }] *)
Record ExtractedElement := mkExtracted {
  raw :> RawElement;
  selector : string
}.

Definition BoxedElement := ExtractedElement.

Record SelectorAttrs := mkSelectorAttrs {
  sa_id : option string;
  sa_dataTestid : option string;
  sa_ariaLabel : option string;
  sa_name : option string;
  sa_tag : option string
}.

(** The double-quote character of the attribute selectors. *)
Definition dquote : string := String (ascii_of_nat 34) EmptyString.

Definition generateSelector (attrs : SelectorAttrs) : string :=
  if JS.truthy (sa_id attrs) then "#" ++ JS.or_empty (sa_id attrs)
  else if JS.truthy (sa_dataTestid attrs)
       then "[data-testid=" ++ dquote ++ JS.or_empty (sa_dataTestid attrs) ++ dquote ++ "]"
  else if JS.truthy (sa_ariaLabel attrs)
       then "[aria-label=" ++ dquote ++ JS.or_empty (sa_ariaLabel attrs) ++ dquote ++ "]"
  else if JS.truthy (sa_name attrs)
       then "[name=" ++ dquote ++ JS.or_empty (sa_name attrs) ++ dquote ++ "]"
  else JS.or_else (sa_tag attrs) "element".

(* ===================================================================== *)
(** ** Structural extraction and the visual scanner (current module) *)
(* ===================================================================== *)

(** [mapRawElements]: the selector is synthesised from the record, not from
    the DOM. *)
Definition withSelector (element : RawElement) : ExtractedElement :=
  {| raw := element;
     selector := generateSelector
       {| sa_id := JS.or_undefined (JS.prop "id" (attributes element));
          sa_dataTestid := JS.or_undefined (JS.prop "dataTestid" (attributes element));
          sa_ariaLabel := JS.or_undefined (JS.prop "ariaLabel" (attributes element));
          sa_name := name element;
          sa_tag := Some (tag element) |} |}.

Definition mapRawElements (raw : list RawElement) : list ExtractedElement :=
  map withSelector raw.

(** The projection [extractElements] runs in the page on the [i]-th match. *)
Definition projectElement (i : nat) (e : Element) : RawElement :=
  let a_id := getAttribute "id" e in
  let a_name := getAttribute "name" e in
  let a_placeholder := getAttribute "placeholder" e in
  let a_href := getAttribute "href" e in
  let a_class := getAttribute "class" e in
  let a_testid := getAttribute "data-testid" e in
  let a_label := getAttribute "aria-label" e in
  let a_role := getAttribute "role" e in
  let a_tabindex := getAttribute "tabindex" e in
  let tag_ := JS.toLowerCase (tagName e) in
  let type_ := JS.or_undefined (typeProperty e) in
  let action_ :=
    if (tag_ =? "button") || (tag_ =? "a")
       || match a_role with Some r => r =? "button" | None => false end
       || JS.truthy a_tabindex
    then click
    else if (tag_ =? "input") || (tag_ =? "textarea") || (tag_ =? "select")
    then input
    else none in
  {| id := JS.or_else a_id ("el-" ++ JS.nat_to_string i);
     tag := tag_;
     type := type_;
     name := JS.or_undefined a_name;
     placeholder := JS.or_undefined a_placeholder;
     text := option_map (fun t => JS.substring0 100 (JS.trim t)) (textContent e);
     href := JS.or_undefined a_href;
     action := action_;
     bbox := None;
     confidence := None;
     attributes :=
       [("id", JS.or_empty a_id);
        ("className", JS.or_empty a_class);
        ("dataTestid", JS.or_empty a_testid);
        ("ariaLabel", JS.or_empty a_label);
        ("role", JS.or_empty a_role)] |}.

Definition extractElements (page : Page) : list ExtractedElement :=
  let raw := JS.mapi projectElement (querySelectorAll INTERACTIVE_SELECTOR page) in
  mapRawElements raw.

(** The geometric test of [collect]. *)
Definition visibleInViewport (vw vh : Q) (rect : DOMRect) : bool :=
  JS.gt (rect_width rect) 8 && JS.gt (rect_height rect) 8
  && JS.gt (rect_bottom rect) 0 && JS.gt (rect_right rect) 0
  && JS.lt (rect_left rect) vw && JS.lt (rect_top rect) vh.

(** The text of a boxed element: trimmed, white-space runs collapsed, cut at
    120 code units, and the empty string when there is none. *)
Definition boxedText (e : Element) : string :=
  JS.or_empty
    (option_map (fun t => JS.substring0 120 (JS.replace_ws_runs (JS.trim t)))
                (textContent e)).

(** The projection of [collect] on the [i]-th match: [None] is [null]. *)
Definition collectOne (vw vh : Q) (conf : Q) (textOnly : bool)
                      (i : nat) (e : Element) : option RawElement :=
  let rect := boundingClientRect e in
  if negb (visibleInViewport vw vh rect) then None
  else
  let text_ := boxedText e in
  if textOnly && Nat.ltb (String.length text_) 2 then None
  else
  let a_id := getAttribute "id" e in
  let a_name := getAttribute "name" e in
  let a_placeholder := getAttribute "placeholder" e in
  let a_href := getAttribute "href" e in
  let a_class := getAttribute "class" e in
  let a_testid := getAttribute "data-testid" e in
  let a_label := getAttribute "aria-label" e in
  let a_role := getAttribute "role" e in
  let a_tabindex := getAttribute "tabindex" e in
  let tag_ := JS.toLowerCase (tagName e) in
  let type_ := JS.or_undefined (typeProperty e) in
  let action_ :=
    if (tag_ =? "button") || (tag_ =? "a")
       || match a_role with Some r => r =? "button" | None => false end
       || JS.truthy a_tabindex || textOnly
    then click
    else if (tag_ =? "input") || (tag_ =? "textarea") || (tag_ =? "select")
    then input
    else none in
  Some
  {| id := JS.or_else a_id ("el-" ++ JS.nat_to_string i);
     tag := tag_;
     type := type_;
     name := JS.or_undefined a_name;
     placeholder := JS.or_undefined a_placeholder;
     text := Some text_;
     href := JS.or_undefined a_href;
     action := action_;
     bbox := Some {| x := Z.max 0 (JS.round (rect_left rect));
                     y := Z.max 0 (JS.round (rect_top rect));
                     width := JS.round (rect_width rect);
                     height := JS.round (rect_height rect) |};
     confidence := Some conf;
     attributes :=
       [("id", JS.or_empty a_id);
        ("className", JS.or_empty a_class);
        ("dataTestid", JS.or_empty a_testid);
        ("ariaLabel", JS.or_empty a_label);
        ("role", JS.or_empty a_role)] |}.

Definition collect (page : Page) (sel : SelectorList) (conf : Q)
                   (includeTextOnly : bool) : list RawElement :=
  JS.filter_Boolean
    (JS.mapi (collectOne (innerWidth page) (innerHeight page) conf includeTextOnly)
             (querySelectorAll sel page)).

(** The two confidence constants, 0.85 and 0.55. *)
Definition CONF_PRIMARY : Q := 85 # 100.
Definition CONF_FALLBACK : Q := 55 # 100.

Definition primaryTier (page : Page) : list RawElement :=
  collect page INTERACTIVE_SELECTOR CONF_PRIMARY false.

Definition fallbackTier (page : Page) : list RawElement :=
  firstn 50 (collect page FALLBACK_SELECTOR CONF_FALLBACK true).

Definition extractVisibleElementsWithBoxes (page : Page) : list BoxedElement :=
  let raw := primaryTier page in
  let raw := if Nat.eqb (List.length raw) 0 then fallbackTier page else raw in
  mapRawElements raw.

(* ===================================================================== *)
(** ** Structural extraction, per-selector form (older module) *)
(* ===================================================================== *)

Module PerSelector.

Definition interactiveSelectors : list SelectorList :=
  [[sel_button]; [sel_link]; [sel_input]; [sel_textarea]; [sel_select];
   [sel_role_button]; [sel_tabindex]].

(** The record built for a handle when [elements] holds what was pushed so
    far. *)
Definition extracted (elements : list ExtractedElement) (el : Element)
  : ExtractedElement :=
  let e_tag := JS.toLowerCase (tagName el) in
  let e_type := JS.or_undefined (typeProperty el) in
  let e_name := getAttribute "name" el in
  let e_placeholder := getAttribute "placeholder" el in
  let e_text := option_map (fun t => JS.substring0 100 (JS.trim t)) (textContent el) in
  let e_href := getAttribute "href" el in
  let e_id := getAttribute "id" el in
  let e_class := getAttribute "class" el in
  let e_testid := getAttribute "data-testid" el in
  let e_label := getAttribute "aria-label" el in
  let e_role := getAttribute "role" el in
  let e_tabindex := getAttribute "tabindex" el in
  let selector_ :=
    generateSelector {| sa_id := e_id; sa_dataTestid := e_testid;
                        sa_ariaLabel := e_label; sa_name := e_name;
                        sa_tag := Some e_tag |} in
  let action_ :=
    if (e_tag =? "button") || (e_tag =? "a")
       || match e_role with Some r => r =? "button" | None => false end
       || JS.truthy e_tabindex
    then click
    else if (e_tag =? "input") || (e_tag =? "textarea") || (e_tag =? "select")
    then input
    else none in
  {| raw :=
       {| id := JS.or_else e_id ("el-" ++ JS.nat_to_string (List.length elements));
          tag := e_tag;
          type := e_type;
          name := e_name;
          placeholder := e_placeholder;
          text := e_text;
          href := e_href;
          action := action_;
          bbox := None;
          confidence := None;
          attributes :=
            [("className", JS.or_empty e_class);
             ("dataTestid", JS.or_empty e_testid);
             ("ariaLabel", JS.or_empty e_label);
             ("role", JS.or_empty e_role)] |};
     selector := selector_ |}.

(** One turn of the inner loop: a handle that throws is skipped by the
    [catch], an invisible one by the [continue]. *)
Definition visit (elements : list ExtractedElement) (el : Element)
  : list ExtractedElement :=
  if handleThrows el then elements
  else if negb (isVisible el) then elements
  else elements ++ [extracted elements el].

Definition extractElements (page : Page) : list ExtractedElement :=
  fold_left
    (fun elements selector => fold_left visit (querySelectorAll selector page) elements)
    interactiveSelectors [].

End PerSelector.

(* ===================================================================== *)
(** ** Fingerprint pool and session manager *)
(* ===================================================================== *)

Definition Handle := nat.

Record Viewport := mkViewport { vp_width : Z; vp_height : Z }.

Record StealthOptions := mkOptions {
  proxy : option string;
  userAgent : option string;
  rotateUA : option bool;
  viewport : option Viewport
}.

(** [{}], the options of a fresh manager. *)
Definition no_options : StealthOptions :=
  {| proxy := None; userAgent := None; rotateUA := None; viewport := None |}.

Definition USER_AGENTS : list string :=
  ["Mozilla/5.0 (Windows NT 10.0; Win64; x64) AppleWebKit/537.36 (KHTML, like Gecko) Chrome/120.0.0.0 Safari/537.36";
   "Mozilla/5.0 (Macintosh; Intel Mac OS X 10_15_7) AppleWebKit/537.36 (KHTML, like Gecko) Chrome/120.0.0.0 Safari/537.36";
   "Mozilla/5.0 (Windows NT 10.0; Win64; x64; rv:121.0) Gecko/20100101 Firefox/121.0";
   "Mozilla/5.0 (Macintosh; Intel Mac OS X 10_15_7) AppleWebKit/605.1.15 (KHTML, like Gecko) Version/17.2 Safari/605.1.15"].

Definition VIEWPORTS : list Viewport :=
  [mkViewport 1920 1080; mkViewport 1440 900; mkViewport 1366 768;
   mkViewport 1280 720].

(** The calls the manager makes on the engine and on the timer. *)
Inductive Call :=
| Launch (proxy_server : option string)
| NewContext (b : Handle) (ua : option string) (vp : option Viewport)
| AddInitScript (c : Handle)
| NewPage (c : Handle)
| SetDefaultTimeout (p : Handle) (ms : Z)
| SetTimeout (ms : Z)
| ContextClose (c : Handle)
| BrowserClose (b : Handle).

(** A [close()] whose promise nobody awaits: its continuation
    ([this.browser = null]) waits for [browser.close()] to settle, with
    [close_error] the rejection, if any. *)
Record Task := mkTask { closing : Handle; close_error : option string }.

(** The module-level cursors, the manager's fields, the calls made so far and
    the continuations not yet run. *)
Record World := mkWorld {
  uaIndex : nat;
  viewportIndex : nat;
  browser : option Handle;
  options : StealthOptions;
  trace : list Call;
  pending : list Task
}.

Definition initial_world : World :=
  {| uaIndex := 0; viewportIndex := 0; browser := None; options := no_options;
     trace := []; pending := [] |}.

Definition set_uaIndex (n : nat) (w : World) : World :=
  mkWorld n (viewportIndex w) (browser w) (options w) (trace w) (pending w).
Definition set_viewportIndex (n : nat) (w : World) : World :=
  mkWorld (uaIndex w) n (browser w) (options w) (trace w) (pending w).
Definition set_browser (b : option Handle) (w : World) : World :=
  mkWorld (uaIndex w) (viewportIndex w) b (options w) (trace w) (pending w).
Definition set_options (o : StealthOptions) (w : World) : World :=
  mkWorld (uaIndex w) (viewportIndex w) (browser w) o (trace w) (pending w).
Definition set_trace (t : list Call) (w : World) : World :=
  mkWorld (uaIndex w) (viewportIndex w) (browser w) (options w) t (pending w).
Definition set_pending (p : list Task) (w : World) : World :=
  mkWorld (uaIndex w) (viewportIndex w) (browser w) (options w) (trace w) p.

(** What the engine decides: whether a call made after a given history is
    rejected (and with which message), and what [Math.random()] draws. *)
Record Engine := mkEngine {
  rejects : Call -> list Call -> option string;
  mathRandom : list Call -> Q
}.

Inductive Outcome (A : Type) :=
| Returned (a : A)
| Thrown (err : string).
Arguments Returned {A} a.
Arguments Thrown {A} err.

(** Computations over the world that return or throw. *)
Definition M (A : Type) := World -> Outcome A * World.

Definition ret {A} (a : A) : M A := fun w => (Returned a, w).

Definition bind {A B} (m : M A) (k : A -> M B) : M B :=
  fun w =>
    match m w with
    | (Returned a, w') => k a w'
    | (Thrown e, w') => (Thrown e, w')
    end.

Notation "x <- m ;; k" := (bind m (fun x => k))
  (at level 61, m at next level, right associativity).
Notation "m ;;; k" := (bind m (fun _ => k))
  (at level 61, right associativity).

(** [try { body } finally { fin }]: the finaliser runs on both outcomes; if it
    throws, its error replaces the outcome of the body. *)
Definition try_finally {A} (body : M A) (fin : M unit) : M A :=
  fun w =>
    let (r, w1) := body w in
    match fin w1 with
    | (Returned _, w2) => (r, w2)
    | (Thrown e, w2) => (Thrown e, w2)
    end.

Definition gets {A} (f : World -> A) : M A := fun w => (Returned (f w), w).
Definition modify (f : World -> World) : M unit := fun w => (Returned tt, f w).

Definition getNextUserAgent : M (option string) :=
  i <- gets uaIndex ;;
  let ua := nth_error USER_AGENTS i in
  modify (set_uaIndex ((i + 1) mod List.length USER_AGENTS)) ;;;
  ret ua.

Definition getNextViewport : M (option Viewport) :=
  i <- gets viewportIndex ;;
  let vp := nth_error VIEWPORTS i in
  modify (set_viewportIndex ((i + 1) mod List.length VIEWPORTS)) ;;;
  ret vp.

Section BrowserManager.

Variable engine : Engine.

(** An awaited engine call: it is recorded, and either yields the handle of
    what it created (its position in the trace) or throws. *)
Definition perform (c : Call) : M Handle :=
  fun w =>
    let w' := set_trace (trace w ++ [c]) w in
    match rejects engine c (trace w) with
    | Some err => (Thrown err, w')
    | None => (Returned (List.length (trace w)), w')
    end.

(** A call that cannot fail. *)
Definition note (c : Call) : M unit :=
  modify (fun w => set_trace (trace w ++ [c]) w).

(** [getBrowser], run from start to end.  The test of [this.browser] and
    the assignment stand on the two sides of an [await]; calls that overlap
    are described by [getBrowser_begin] and [getBrowser_resume] below. *)
Definition getBrowser : M Handle :=
  cur <- gets browser ;;
  match cur with
  | Some b => ret b
  | None =>
      o <- gets options ;;
      b <- perform (Launch (JS.or_undefined (proxy o))) ;;
      modify (set_browser (Some b)) ;;;
      ret b
  end.

(** [Math.floor(Math.random() * 1000) + 500] *)
Definition randomDelay : M Z :=
  t <- gets trace ;;
  ret (Qfloor (mathRandom engine t * 1000) + 500)%Z.

(** [withPage] up to its [try]: browser, fingerprint, context, init script,
    page.  Yields the context and the page. *)
Definition openSession : M (Handle * Handle) :=
  b <- getBrowser ;;
  o <- gets options ;;
  ua <- (if negb (JS.truthy (userAgent o))
            && match rotateUA o with Some r => r | None => false end
         then getNextUserAgent
         else ret (userAgent o)) ;;
  vp <- match viewport o with
        | Some v => ret (Some v)
        | None => getNextViewport
        end ;;
  c <- perform (NewContext b ua vp) ;;
  perform (AddInitScript c) ;;;
  p <- perform (NewPage c) ;;
  note (SetDefaultTimeout p 30000) ;;;
  ret (c, p).

Definition withPage {T} (fn : Handle -> M T) : M T :=
  cp <- openSession ;;
  d <- randomDelay ;;
  try_finally
    (note (SetTimeout d) ;;; fn (snd cp))
    (perform (ContextClose (fst cp)) ;;; ret tt).

(** [close()], awaited by its caller. *)
Definition close : M unit :=
  cur <- gets browser ;;
  match cur with
  | Some b =>
      perform (BrowserClose b) ;;;
      modify (set_browser None)
  | None => ret tt
  end.

(** [close()] called without [await]: the body runs up to its first [await],
    that is, [browser.close()] is called, and the rest becomes pending. *)
Definition close_unawaited (w : World) : World :=
  match browser w with
  | Some b =>
      let w' := set_trace (trace w ++ [BrowserClose b]) w in
      set_pending
        (pending w' ++ [mkTask b (rejects engine (BrowserClose b) (trace w))]) w'
  | None => w
  end.

(** The event loop runs the oldest pending continuation, once the engine has
    confirmed the close.  When the engine rejects the close instead, the
    dropped promise rejects with nobody to catch it and the program has no
    next state to describe; [settle] then leaves the world as it is, and
    nothing below is stated about that case. *)
Definition settle (w : World) : World :=
  match pending w with
  | [] => w
  | t :: rest =>
      let w' := set_pending rest w in
      match close_error t with
      | None => set_browser None w'
      | Some _ => w'
      end
  end.

Definition setOptions (o : StealthOptions) : M unit :=
  modify (set_options o) ;;;
  cur <- gets browser ;;
  match cur with
  | Some _ => modify close_unawaited
  | None => ret tt
  end.

(** [n] sessions in a row, each with its own work function; a session that
    throws does not stop the next request.  The requests do not overlap, and
    no pending continuation runs between them. *)
Fixpoint sessions {T} (works : list (Handle -> M T)) (w : World) : World :=
  match works with
  | [] => w
  | fn :: rest => sessions rest (snd (withPage fn w))
  end.

End BrowserManager.

(** The user-agents handed to [newContext], in call order. *)
Fixpoint issuedUserAgents (t : list Call) : list (option string) :=
  match t with
  | [] => []
  | NewContext _ ua _ :: r => ua :: issuedUserAgents r
  | _ :: r => issuedUserAgents r
  end.

(* ===================================================================== *)
(** ** The [/scan-screenshot] handler after the scan *)
(* ===================================================================== *)

(** A regular expression that is an alternation of literals, tested without
    case: does some alternative occur somewhere in [s]? *)
Fixpoint literal_at (lit s : string) : bool :=
  match lit, s with
  | EmptyString, _ => true
  | String _ _, EmptyString => false
  | String a lit', String b s' =>
      Ascii.eqb (JS.canonicalize a) (JS.canonicalize b) && literal_at lit' s'
  end.

Fixpoint regex_test_i (alternatives : list string) (s : string) : bool :=
  existsb (fun lit => literal_at lit s) alternatives
  || match s with
     | EmptyString => false
     | String _ r => regex_test_i alternatives r
     end.

(** [/access denied|forbidden|captcha|attention required/i] *)
Definition BLOCKED_TITLE : list string :=
  ["access denied"; "forbidden"; "captcha"; "attention required"].

Record Scan := mkScan {
  scan_status : option Z;
  scan_finalUrl : string;
  scan_title : option string;
  scan_elements : list BoxedElement;
  scan_screenshot : string;
  scan_timeoutMs : Z;
  scan_viewport : option Viewport
}.

(** The JSON body with its HTTP status; a key the handler leaves out is
    [None]. *)
Record Response := mkResponse {
  http : Z;
  ok : bool;
  blocked : option bool;
  res_url : string;
  res_finalUrl : string;
  res_status : option Z;
  res_title : option string;
  res_screenshot : option string;
  res_elements : list BoxedElement;
  res_count : nat;
  res_timeoutMs : Z;
  res_viewport : option Viewport;
  res_error : option string
}.

Definition status_is (s : option Z) (n : Z) : bool :=
  match s with Some v => Z.eqb v n | None => false end.

Definition blockedByStatus (scan : Scan) : bool :=
  status_is (scan_status scan) 401 || status_is (scan_status scan) 403
  || status_is (scan_status scan) 429.

Definition blockedByTitle (scan : Scan) : bool :=
  regex_test_i BLOCKED_TITLE (JS.or_empty (scan_title scan)).

Definition scanResponse (targetUrl : string) (scan : Scan) : Response :=
  if blockedByStatus scan || blockedByTitle scan then
    {| http := 422; ok := false; blocked := Some true;
       res_url := targetUrl; res_finalUrl := scan_finalUrl scan;
       res_status := scan_status scan; res_title := scan_title scan;
       res_screenshot := None;
       res_elements := []; res_count := 0;
       res_timeoutMs := scan_timeoutMs scan; res_viewport := scan_viewport scan;
       res_error := Some "Target site blocked access (403/anti-bot). Screenshot results are hidden for this page." |}
  else if Nat.eqb (List.length (scan_elements scan)) 0 then
    {| http := 422; ok := false; blocked := None;
       res_url := targetUrl; res_finalUrl := scan_finalUrl scan;
       res_status := scan_status scan; res_title := scan_title scan;
       res_screenshot := Some (scan_screenshot scan);
       res_elements := []; res_count := 0;
       res_timeoutMs := scan_timeoutMs scan; res_viewport := scan_viewport scan;
       res_error := Some "Screenshot scan found no visible interactive elements." |}
  else
    {| http := 200; ok := true; blocked := None;
       res_url := targetUrl; res_finalUrl := scan_finalUrl scan;
       res_status := scan_status scan; res_title := scan_title scan;
       res_screenshot := Some (scan_screenshot scan);
       res_elements := scan_elements scan;
       res_count := List.length (scan_elements scan);
       res_timeoutMs := scan_timeoutMs scan; res_viewport := scan_viewport scan;
       res_error := None |}.

(* ===================================================================== *)
(** ** The statements of the specification, in its words *)
(* ===================================================================== *)

(** Selector priority, first match wins: id, data-testid, aria-label, name,
    bare tag name.  An attribute counts when it is present and not empty. *)
Definition selector_by_priority (e : Element) : string :=
  match JS.or_undefined (getAttribute "id" e) with
  | Some v => "#" ++ v
  | None =>
  match JS.or_undefined (getAttribute "data-testid" e) with
  | Some v => "[data-testid=" ++ dquote ++ v ++ dquote ++ "]"
  | None =>
  match JS.or_undefined (getAttribute "aria-label" e) with
  | Some v => "[aria-label=" ++ dquote ++ v ++ dquote ++ "]"
  | None =>
  match JS.or_undefined (getAttribute "name" e) with
  | Some v => "[name=" ++ dquote ++ v ++ dquote ++ "]"
  | None => JS.toLowerCase (tagName e)
  end end end end.

(** Taxonomy-category order, and document order within a category. *)
Definition by_category (page : Page) : list Element :=
  flat_map (fun category => querySelectorAll [category] page) INTERACTIVE_SELECTOR.

(** An element the per-selector extraction can report. *)
Definition reportable (e : Element) : bool :=
  negb (handleThrows e) && isVisible e.

(** Strictly larger than 8 by 8. *)
Definition larger_than_8x8 (r : DOMRect) : Prop :=
  (8 < rect_width r /\ 8 < rect_height r)%Q.

(** The part of the box inside the viewport rectangle
    [0, vw) x [0, vh): its extent in each direction. *)
Definition overlap_width (vw : Q) (r : DOMRect) : Q :=
  (Qmin (rect_right r) vw - Qmax (rect_left r) 0)%Q.
Definition overlap_height (vh : Q) (r : DOMRect) : Q :=
  (Qmin (rect_bottom r) vh - Qmax (rect_top r) 0)%Q.

Definition overlaps_viewport (vw vh : Q) (r : DOMRect) : Prop :=
  (0 < overlap_width vw r /\ 0 < overlap_height vh r)%Q.

Definition outside_viewport (vw vh : Q) (r : DOMRect) : Prop :=
  (overlap_width vw r <= 0 \/ overlap_height vh r <= 0)%Q.

(** White-space normalised: the only white space is the space character,
    and no two of them are adjacent. *)
Fixpoint single_spaced (s : string) : bool :=
  match s with
  | EmptyString => true
  | String c r =>
      (negb (JS.isWhiteSpace c) || Ascii.eqb c " ")
      && match r with
         | String d _ => negb (JS.isWhiteSpace c && JS.isWhiteSpace d)
         | EmptyString => true
         end
      && single_spaced r
  end.

(** Does the string start with white space? *)
Definition starts_with_space (s : string) : bool :=
  match s with
  | String c _ => JS.isWhiteSpace c
  | EmptyString => false
  end.

(** The records of the per-selector extraction for a sequence of elements
    that are all reported: each is numbered by the count of those before
    it. *)
Definition push (elements : list ExtractedElement) (el : Element)
  : list ExtractedElement :=
  elements ++ [PerSelector.extracted elements el].

Definition numbered_from (elements : list ExtractedElement) (els : list Element)
  : list ExtractedElement :=
  fold_left push els elements.

(** Equal up to the case of letters. *)
Fixpoint fold_case (s : string) : string :=
  match s with
  | EmptyString => EmptyString
  | String c r => String (JS.canonicalize c) (fold_case r)
  end.



(** How often the trace closes context [c], and how often it closes a
    browser. *)
Fixpoint contextCloses (c : Handle) (t : list Call) : nat :=
  match t with
  | [] => 0
  | ContextClose c' :: r =>
      (if Nat.eqb c c' then 1 else 0) + contextCloses c r
  | _ :: r => contextCloses c r
  end.

Fixpoint browserCloses (t : list Call) : nat :=
  match t with
  | [] => 0
  | BrowserClose _ :: r => 1 + browserCloses r
  | _ :: r => browserCloses r
  end.

(** A work function that neither reconfigures the manager nor opens
    sessions of its own. *)
Definition quiet {T} (fn : Handle -> M T) : Prop :=
  forall p w,
    options (snd (fn p w)) = options w
    /\ uaIndex (snd (fn p w)) = uaIndex w
    /\ issuedUserAgents (trace (snd (fn p w))) = issuedUserAgents (trace w).

(** *** Engines and worlds used as concrete inputs *)

(** An engine that rejects nothing and always draws one half. *)
Definition reliable_engine : Engine :=
  {| rejects := fun _ _ => None; mathRandom := fun _ => 1 # 2 |}.

(** An engine on which no page can be opened. *)
Definition engine_without_pages : Engine :=
  {| rejects := fun c _ =>
                  match c with
                  | NewPage _ => Some "Target closed"
                  | _ => None
                  end;
     mathRandom := fun _ => 1 # 2 |}.

(** The manager after its first browser launch. *)
Definition world_with_browser : World :=
  snd (getBrowser reliable_engine initial_world).

(** [{ rotateUA: true }] *)
Definition rotating_options : StealthOptions :=
  {| proxy := None; userAgent := None; rotateUA := Some true; viewport := None |}.

(** A work function that returns at once, and one that throws at once. *)
Definition work_returns (p : Handle) : M nat := ret p.
Definition work_throws (p : Handle) : M nat :=
  fun w => (Thrown "navigation timeout", w).

(** *** Pages used as concrete inputs *)

(** [node] builds a plain element: no hiding style and nothing rendered
    outside its own box, so the engine reports it visible exactly when its
    box is not empty. *)
Definition box (l t w h : Q) : DOMRect :=
  {| rect_left := l; rect_top := t; rect_width := w; rect_height := h |}.

Definition node (tagname : string) (attrs : list (string * string))
                (txt : string) (r : DOMRect) : Element :=
  {| tagName := tagname; domAttributes := attrs; textContent := Some txt;
     typeProperty := None; boundingClientRect := r;
     reportsVisible := JS.gt (rect_width r) 0 && JS.gt (rect_height r) 0;
     handleThrows := false |}.

Definition desktop (els : list Element) : Page :=
  {| document := els; innerWidth := 1280; innerHeight := 720 |}.

(** [<button id="go">Go</button>] *)
Definition page_button_go : Page :=
  desktop
    [{| tagName := "BUTTON"; domAttributes := [("id", "go")];
        textContent := Some "Go"; typeProperty := Some "submit";
        boundingClientRect := box 10 10 60 24; reportsVisible := true;
        handleThrows := false |}].


(** A button that is in the DOM but rendered with no size, which the engine
    reports as not visible. *)
Definition page_unrendered_button : Page :=
  desktop [node "BUTTON" [] "Menu" (box 0 0 0 0)].

(** A button with [display: contents]: its own box is empty, its label is
    rendered, and the engine reports it visible. *)
Definition page_display_contents_button : Page :=
  desktop
    [{| tagName := "BUTTON"; domAttributes := [("id", "menu")];
        textContent := Some "Menu"; typeProperty := Some "submit";
        boundingClientRect := box 0 0 0 0; reportsVisible := true;
        handleThrows := false |}].

(** A link followed by a button. *)
Definition page_link_then_button : Page :=
  desktop [node "A" [("href", "/next")] "Next" (box 10 10 60 24);
           node "BUTTON" [] "Send" (box 10 50 60 24)].

(** Only a paragraph, 100 by 20, inside the viewport. *)
Definition page_paragraph : Page :=
  desktop [node "P" [] "Click   here to
 continue" (box 40 40 100 20)].

(* ===================================================================== *)
(** ** The request handlers of [index.ts], around the browser module *)
(* ===================================================================== *)

(** [/^https?:\/\//i.test(s)] *)
Definition has_scheme (s : string) : bool :=
  literal_at "http://" s || literal_at "https://" s.

Definition normalizeUrl (input : string) : string :=
  let trimmed := JS.trim input in
  if negb (has_scheme trimmed) then "https://" ++ trimmed else trimmed.

(** A JavaScript number, as [Number(timeoutMs)] can yield it. *)
Inductive JSNumber :=
| Num (q : Q)
| NaN
| PlusInfinity
| MinusInfinity.

(** [Number.isFinite(parsedTimeout)
      ? Math.min(Math.max(parsedTimeout, 3000), 120000) : 30000] *)
Definition effectiveTimeout (parsedTimeout : JSNumber) : Q :=
  match parsedTimeout with
  | Num q => Qmin (Qmax q 3000) 120000
  | _ => 30000
  end.

(** What the work function of [/elements] returns. *)
Record Extraction := mkExtraction {
  ext_elements : list ExtractedElement;
  ext_status : option Z;
  ext_finalUrl : string;
  ext_timeoutMs : Z
}.

(** A number inside a template literal. *)
Definition Z_to_string (z : Z) : string :=
  NilZero.string_of_int (Z.to_int z).

(** [extraction.status ? ` (HTTP ${extraction.status})` : ''] *)
Definition statusHint (status : option Z) : string :=
  match status with
  | Some z => if Z.eqb z 0 then EmptyString
              else " (HTTP " ++ Z_to_string z ++ ")"
  | None => EmptyString
  end.

(** The [/elements] handler after the extraction. *)
Definition elementsResponse (targetUrl : string) (extraction : Extraction)
  : Response :=
  if Nat.eqb (List.length (ext_elements extraction)) 0 then
    {| http := 422; ok := false; blocked := None;
       res_url := targetUrl; res_finalUrl := ext_finalUrl extraction;
       res_status := ext_status extraction; res_title := None;
       res_screenshot := None;
       res_elements := []; res_count := 0;
       res_timeoutMs := ext_timeoutMs extraction; res_viewport := None;
       res_error :=
         Some ("Extraction failed: no interactive elements were found"
               ++ statusHint (ext_status extraction)
               ++ ". The site may be blocking automation or returned non-usable content.")%string |}
  else
    {| http := 200; ok := true; blocked := None;
       res_url := targetUrl; res_finalUrl := ext_finalUrl extraction;
       res_status := ext_status extraction; res_title := None;
       res_screenshot := None;
       res_elements := ext_elements extraction;
       res_count := List.length (ext_elements extraction);
       res_timeoutMs := ext_timeoutMs extraction; res_viewport := None;
       res_error := None |}.

(** How often the trace launches a browser. *)
Fixpoint launches (t : list Call) : nat :=
  match t with
  | [] => 0
  | Launch _ :: r => 1 + launches r
  | _ :: r => launches r
  end.

(** A work function that leaves the browser of the manager alone: it
    installs or clears no handle, launches nothing and starts no close. *)
Definition keeps_browser {T} (fn : Handle -> M T) : Prop :=
  forall p w,
    browser (snd (fn p w)) = browser w
    /\ launches (trace (snd (fn p w))) = launches (trace w)
    /\ pending (snd (fn p w)) = pending w.




(** *** More concrete inputs *)

(** An engine on which no browser can be launched. *)
Definition engine_without_browser : Engine :=
  {| rejects := fun c _ =>
                  match c with
                  | Launch _ => Some "Executable not found"
                  | _ => None
                  end;
     mathRandom := fun _ => 1 # 2 |}.

(** An engine on which a browser cannot be closed. *)
Definition engine_without_close : Engine :=
  {| rejects := fun c _ =>
                  match c with
                  | BrowserClose _ => Some "Browser has crashed"
                  | _ => None
                  end;
     mathRandom := fun _ => 1 # 2 |}.


(** A button that also carries a tabindex, then a container whose tabindex
    is empty. *)
Definition page_button_with_tabindex : Page :=
  desktop [node "BUTTON" [("tabindex", "0")] "  Save   all  " (box 10 10 60 24);
           node "DIV" [("tabindex", EmptyString)] "Card" (box 10 50 (606 # 10) 24)].

(* ===================================================================== *)
(** ** Lemmas on the JavaScript primitives *)
(* ===================================================================== *)

Local Open Scope nat_scope.

Lemma nth_error_mapi_from {A B} (f : nat -> A -> B) (l : list A) :
  forall k i, nth_error (JS.mapi_from k f l) i = option_map (f (k + i)) (nth_error l i).
Proof.
  induction l as [|a l IH]; intros k i.
  - destruct i; reflexivity.
  - destruct i; simpl.
    + now rewrite Nat.add_0_r.
    + rewrite IH. now rewrite Nat.add_succ_r.
Qed.

Lemma nth_error_mapi {A B} (f : nat -> A -> B) (l : list A) (i : nat) :
  nth_error (JS.mapi f l) i = option_map (f i) (nth_error l i).
Proof. unfold JS.mapi. now rewrite nth_error_mapi_from. Qed.

Lemma length_mapi_from {A B} (f : nat -> A -> B) (l : list A) :
  forall k, List.length (JS.mapi_from k f l) = List.length l.
Proof. induction l; intros; simpl; auto. Qed.

Lemma in_mapi {A B} (f : nat -> A -> B) (l : list A) (b : B) :
  In b (JS.mapi f l) -> exists i a, nth_error l i = Some a /\ b = f i a.
Proof.
  intros H. apply In_nth_error in H. destruct H as [i H].
  rewrite nth_error_mapi in H.
  destruct (nth_error l i) as [a|] eqn:E; simpl in H; [|discriminate].
  exists i, a. split; [exact E|congruence].
Qed.

Lemma in_filter_Boolean {A} (l : list (option A)) (a : A) :
  In a (JS.filter_Boolean l) <-> In (Some a) l.
Proof.
  induction l as [|[x|] l IH]; simpl.
  - tauto.
  - rewrite IH. split; intros [H|H]; auto; left; congruence.
  - rewrite IH. split; [auto|]. intros [H|H]; [discriminate|auto].
Qed.

Lemma or_undefined_or_empty (v : option string) :
  JS.or_undefined (Some (JS.or_empty v)) = JS.or_undefined v.
Proof.
  destruct v as [s|]; unfold JS.or_undefined, JS.or_empty, JS.or_else, JS.truthy.
  - destruct (String.eqb s EmptyString) eqn:E; simpl; [reflexivity|now rewrite E].
  - reflexivity.
Qed.

(** After [v || undefined], a value is either absent or a non-empty
    string. *)
Lemma or_undefined_cases (v : option string) :
  match JS.or_undefined v with
  | Some s => JS.truthy (JS.or_undefined v) = true
              /\ JS.or_empty (JS.or_undefined v) = s
  | None => JS.truthy (JS.or_undefined v) = false
  end.
Proof.
  destruct v as [s|]; unfold JS.or_undefined, JS.or_empty, JS.or_else, JS.truthy;
    [|reflexivity].
  destruct (String.eqb s EmptyString) eqn:E; simpl; [reflexivity|].
  now rewrite E.
Qed.

Lemma toLowerCase_empty (s : string) :
  JS.toLowerCase s = EmptyString -> s = EmptyString.
Proof. destruct s; simpl; [reflexivity|discriminate]. Qed.

Lemma or_else_nonempty (s d : string) :
  s <> EmptyString -> JS.or_else (Some s) d = s.
Proof.
  intros H. unfold JS.or_else.
  destruct (String.eqb_spec s EmptyString); [contradiction|reflexivity].
Qed.

(* ===================================================================== *)
(** ** Selector synthesis *)
(* ===================================================================== *)

(** The selector of a record built by the in-page projection is the one the
    priority rule gives for its element. *)
Lemma selector_of_projection (i : nat) (e : Element) :
  tagName e <> EmptyString ->
  selector (withSelector (projectElement i e)) = selector_by_priority e.
Proof.
  intros Htag.
  unfold withSelector, projectElement, selector_by_priority; cbn [selector raw attributes name tag].
  cbn [JS.prop String.eqb Ascii.eqb Bool.eqb andb].
  rewrite !or_undefined_or_empty.
  unfold generateSelector;
    cbn [sa_id sa_dataTestid sa_ariaLabel sa_name sa_tag].
  pose proof (or_undefined_cases (getAttribute "id" e)) as Hid.
  destruct (JS.or_undefined (getAttribute "id" e)) as [v|].
  { destruct Hid as [-> ->]. reflexivity. }
  rewrite Hid.
  pose proof (or_undefined_cases (getAttribute "data-testid" e)) as Ht.
  destruct (JS.or_undefined (getAttribute "data-testid" e)) as [v|].
  { destruct Ht as [-> ->]. reflexivity. }
  rewrite Ht.
  pose proof (or_undefined_cases (getAttribute "aria-label" e)) as Hl.
  destruct (JS.or_undefined (getAttribute "aria-label" e)) as [v|].
  { destruct Hl as [-> ->]. reflexivity. }
  rewrite Hl.
  pose proof (or_undefined_cases (getAttribute "name" e)) as Hn.
  destruct (JS.or_undefined (getAttribute "name" e)) as [v|].
  { destruct Hn as [-> ->]. reflexivity. }
  rewrite Hn.
  apply or_else_nonempty. intros H. apply Htag. now apply toLowerCase_empty.
Qed.



(* ===================================================================== *)
(** ** Blocked-page judgment *)
(* ===================================================================== *)






(** Case folding touches letters only, and identifies the two cases of a
    letter. *)
Lemma fold_case_examples :
  fold_case "Attention Required! | CloudFlare" = "ATTENTION REQUIRED! | CLOUDFLARE"%string
  /\ fold_case "attention required" = fold_case "ATTENTION Required"
  /\ fold_case "403 / 50%" = "403 / 50%"%string.
Proof. repeat split. Qed.

(** The three judgments the specification lists. *)
Lemma blocked_judgment_examples (t : option string) (els : list BoxedElement) :
  blocked (scanResponse "u" (mkScan (Some 403%Z) "u" t els "png" 30000 None))
  = Some true
  /\ blocked (scanResponse "u"
                (mkScan (Some 200%Z) "u" (Some "Attention Required! | CloudFlare")
                        els "png" 30000 None))
     = Some true
  /\ blocked (scanResponse "u"
                (mkScan (Some 200%Z) "u" (Some "Example Domain")
                        (extractVisibleElementsWithBoxes page_button_go)
                        "png" 30000 None))
     = None.
Proof. repeat split. Qed.



(** C10.  A navigation without response (status [null]) never meets the
    status condition, a missing or empty title never meets the title
    condition, and a scan with both is answered through the zero-elements or
    the success branch, not the blocked one. *)
Theorem scan_without_status_or_title_not_blocked (targetUrl : string) (scan : Scan) :
  (scan_status scan = None -> blockedByStatus scan = false)
  /\ (scan_title scan = None \/ scan_title scan = Some EmptyString ->
      blockedByTitle scan = false)
  /\ (scan_status scan = None ->
      scan_title scan = None \/ scan_title scan = Some EmptyString ->
      blocked (scanResponse targetUrl scan) = None
      /\ (scan_elements scan = [] ->
          http (scanResponse targetUrl scan) = 422%Z
          /\ res_screenshot (scanResponse targetUrl scan) = Some (scan_screenshot scan)
          /\ res_error (scanResponse targetUrl scan)
             = Some "Screenshot scan found no visible interactive elements."%string)
      /\ (scan_elements scan <> [] ->
          http (scanResponse targetUrl scan) = 200%Z
          /\ ok (scanResponse targetUrl scan) = true
          /\ res_elements (scanResponse targetUrl scan) = scan_elements scan)).
Proof.
  assert (Hs : scan_status scan = None -> blockedByStatus scan = false).
  { intros H. unfold blockedByStatus. now rewrite H. }
  assert (Ht : scan_title scan = None \/ scan_title scan = Some EmptyString ->
               blockedByTitle scan = false).
  { intros [H|H]; unfold blockedByTitle; now rewrite H. }
  split; [exact Hs|]. split; [exact Ht|].
  intros H1 H2. unfold scanResponse. rewrite (Hs H1), (Ht H2). simpl.
  destruct (scan_elements scan) as [|b l]; simpl.
  - split; [reflexivity|]. split.
    + intros _. repeat split.
    + intros Hne. now contradiction Hne.
  - split; [reflexivity|]. split.
    + discriminate.
    + intros _. repeat split.
Qed.

Lemma scan_without_status_or_title_not_blocked_witness :
  let scan := mkScan None "about:blank" (Some EmptyString)
                     (extractVisibleElementsWithBoxes page_button_go)
                     "iVBORw0KGgo=" 30000 (Some (mkViewport 1280 720)) in
  blocked (scanResponse "about:blank" scan) = None
  /\ http (scanResponse "about:blank" scan) = 200%Z.
Proof.
  intros scan.
  destruct (scan_without_status_or_title_not_blocked "about:blank" scan)
    as (_ & _ & H).
  destruct H as (Hb & _ & Hok); [reflexivity|right; reflexivity|].
  split; [exact Hb|]. apply Hok. discriminate.
Defined.

(* ===================================================================== *)
(** ** The visual scanner: geometry *)
(* ===================================================================== *)

Lemma gt_spec (a b : Q) : JS.gt a b = true <-> (b < a)%Q.
Proof.
  unfold JS.gt. rewrite negb_true_iff, <- not_true_iff_false, Qle_bool_iff.
  split; [apply Qnot_le_lt | apply Qlt_not_le].
Qed.

Lemma lt_spec (a b : Q) : JS.lt a b = true <-> (a < b)%Q.
Proof. unfold JS.lt. apply (gt_spec b a). Qed.

Lemma visibleInViewport_spec (vw vh : Q) (r : DOMRect) :
  visibleInViewport vw vh r = true
  <-> (8 < rect_width r /\ 8 < rect_height r /\ 0 < rect_bottom r
       /\ 0 < rect_right r /\ rect_left r < vw /\ rect_top r < vh)%Q.
Proof.
  unfold visibleInViewport.
  rewrite !andb_true_iff, !gt_spec, !lt_spec. tauto.
Qed.

(** With a viewport that is not empty, the test of the scanner implies a
    box larger than 8 by 8 that overlaps the viewport rectangle. *)
Lemma visible_overlaps (vw vh : Q) (r : DOMRect) :
  (0 < vw)%Q -> (0 < vh)%Q ->
  visibleInViewport vw vh r = true ->
  larger_than_8x8 r /\ overlaps_viewport vw vh r.
Proof.
  intros Hvw Hvh Hv. apply visibleInViewport_spec in Hv.
  destruct Hv as (Hw & Hh & Hb & Hr & Hl & Ht).
  unfold larger_than_8x8, overlaps_viewport, overlap_width, overlap_height.
  unfold rect_right, rect_bottom in *.
  split; [split; assumption|].
  split.
  - destruct (Q.min_spec (rect_left r + rect_width r) vw) as [[? ?]|[? ?]];
      destruct (Q.max_spec (rect_left r) 0) as [[? ?]|[? ?]]; lra.
  - destruct (Q.min_spec (rect_top r + rect_height r) vh) as [[? ?]|[? ?]];
      destruct (Q.max_spec (rect_top r) 0) as [[? ?]|[? ?]]; lra.
Qed.

Lemma outside_not_visible (vw vh : Q) (r : DOMRect) :
  (0 < vw)%Q -> (0 < vh)%Q ->
  outside_viewport vw vh r -> visibleInViewport vw vh r = false.
Proof.
  intros Hvw Hvh Hout.
  destruct (visibleInViewport vw vh r) eqn:Hv; [|reflexivity].
  destruct (visible_overlaps vw vh r Hvw Hvh Hv) as [_ [H1 H2]].
  destruct Hout as [H|H]; lra.
Qed.

Lemma collectOne_visible vw vh conf textOnly i e r :
  collectOne vw vh conf textOnly i e = Some r ->
  visibleInViewport vw vh (boundingClientRect e) = true.
Proof.
  unfold collectOne.
  destruct (visibleInViewport vw vh (boundingClientRect e)); simpl;
    [reflexivity|discriminate].
Qed.

Lemma in_collect page sel conf textOnly r :
  In r (collect page sel conf textOnly) ->
  exists i e,
    In e (document page) /\ matches sel e = true
    /\ collectOne (innerWidth page) (innerHeight page) conf textOnly i e = Some r.
Proof.
  unfold collect. rewrite in_filter_Boolean. intros H.
  apply in_mapi in H. destruct H as (i & e & Hn & Hr).
  apply nth_error_In in Hn. unfold querySelectorAll in Hn.
  apply filter_In in Hn. destruct Hn as [Hd Hm].
  exists i, e. auto.
Qed.

Lemma in_firstn {A} (n : nat) (l : list A) (a : A) :
  In a (firstn n l) -> In a l.
Proof.
  intros H. rewrite <- (firstn_skipn n l). apply in_or_app. now left.
Qed.

(** Where a record of the scanner comes from. *)
Lemma in_scanner_output page b :
  In b (extractVisibleElementsWithBoxes page) ->
  exists i e conf textOnly,
    In e (document page)
    /\ collectOne (innerWidth page) (innerHeight page) conf textOnly i e
       = Some (raw b)
    /\ ((conf = CONF_PRIMARY /\ textOnly = false /\ In (raw b) (primaryTier page))
        \/ (conf = CONF_FALLBACK /\ textOnly = true
            /\ primaryTier page = [] /\ In (raw b) (fallbackTier page))).
Proof.
  unfold extractVisibleElementsWithBoxes, mapRawElements.
  intros H. apply in_map_iff in H. destruct H as (r & <- & Hin).
  cbn [raw withSelector].
  destruct (primaryTier page) as [|r0 l] eqn:Hp; cbn [List.length Nat.eqb] in Hin.
  - pose proof Hin as Hin'. unfold fallbackTier in Hin. apply in_firstn in Hin.
    apply in_collect in Hin. destruct Hin as (i & e & Hd & _ & Hc).
    exists i, e, CONF_FALLBACK, true. split; [assumption|]. split; [assumption|].
    right. auto.
  - pose proof Hin as Hin'. rewrite <- Hp in Hin. unfold primaryTier in Hin.
    apply in_collect in Hin. destruct Hin as (i & e & Hd & _ & Hc).
    exists i, e, CONF_PRIMARY, false. split; [assumption|]. split; [assumption|].
    left. auto.
Qed.

(** C7.  In both tiers of the visual scanner an element qualifies only if its
    bounding box is strictly larger than 8 by 8 and has a nonzero overlap with
    the viewport rectangle; so an element whose box lies entirely outside the
    viewport is excluded from the primary and from the fallback tier. *)
Theorem scanner_keeps_only_boxes_in_viewport (page : Page) :
  (0 < innerWidth page)%Q -> (0 < innerHeight page)%Q ->
  (forall r, In r (primaryTier page) \/ In r (fallbackTier page) ->
     exists i e conf textOnly,
       In e (document page)
       /\ collectOne (innerWidth page) (innerHeight page) conf textOnly i e = Some r
       /\ larger_than_8x8 (boundingClientRect e)
       /\ overlaps_viewport (innerWidth page) (innerHeight page)
                            (boundingClientRect e))
  /\ (forall b, In b (extractVisibleElementsWithBoxes page) ->
        In (raw b) (primaryTier page) \/ In (raw b) (fallbackTier page))
  /\ (forall e i conf textOnly,
        outside_viewport (innerWidth page) (innerHeight page)
                         (boundingClientRect e) ->
        collectOne (innerWidth page) (innerHeight page) conf textOnly i e = None).
Proof.
  intros Hvw Hvh. split; [|split].
  - intros r [H|H].
    + apply in_collect in H. destruct H as (i & e & Hd & _ & Hc).
      exists i, e, CONF_PRIMARY, false.
      pose proof (collectOne_visible _ _ _ _ _ _ _ Hc) as Hv.
      destruct (visible_overlaps _ _ _ Hvw Hvh Hv). auto.
    + apply in_firstn in H. apply in_collect in H.
      destruct H as (i & e & Hd & _ & Hc).
      exists i, e, CONF_FALLBACK, true.
      pose proof (collectOne_visible _ _ _ _ _ _ _ Hc) as Hv.
      destruct (visible_overlaps _ _ _ Hvw Hvh Hv). auto.
  - intros b Hb. apply in_scanner_output in Hb.
    destruct Hb as (i & e & conf & t & _ & _ & [(_ & _ & H)|(_ & _ & _ & H)]); auto.
  - intros e i conf textOnly Hout. unfold collectOne.
    now rewrite (outside_not_visible _ _ _ Hvw Hvh Hout).
Qed.

Lemma scanner_keeps_only_boxes_in_viewport_witness :
  (0 < innerWidth page_paragraph)%Q /\ (0 < innerHeight page_paragraph)%Q
  /\ collectOne (innerWidth page_paragraph) (innerHeight page_paragraph)
                CONF_FALLBACK true 0
                (node "P" [] "Click here to continue" (box 1300 40 100 20))
     = None.
Proof.
  assert (Hw : (0 < innerWidth page_paragraph)%Q) by reflexivity.
  assert (Hh : (0 < innerHeight page_paragraph)%Q) by reflexivity.
  split; [exact Hw|]. split; [exact Hh|].
  apply (proj2 (proj2 (scanner_keeps_only_boxes_in_viewport page_paragraph Hw Hh))).
  left. vm_compute. discriminate.
Defined.

(* ===================================================================== *)
(** ** The visual scanner: fallback tier *)
(* ===================================================================== *)

Lemma length_substring0 (n : nat) :
  forall s, String.length (JS.substring0 n s) <= n.
Proof.
  induction n as [|n IH]; intros s; simpl; [lia|].
  destruct s as [|c s]; simpl; [lia|]. specialize (IH s). lia.
Qed.

Lemma single_spaced_cons (c : ascii) (r : string) :
  single_spaced (String c r)
  = (negb (JS.isWhiteSpace c) || Ascii.eqb c " ")
    && negb (JS.isWhiteSpace c && starts_with_space r)
    && single_spaced r.
Proof. destruct r; simpl; [now rewrite andb_false_r|reflexivity]. Qed.

Lemma collapse_single_spaced (s : string) :
  forall inrun,
    single_spaced (JS.collapse inrun s) = true
    /\ (inrun = true -> starts_with_space (JS.collapse inrun s) = false).
Proof.
  induction s as [|c s IH]; intros inrun.
  - simpl. auto.
  - cbn [JS.collapse]. destruct (JS.isWhiteSpace c) eqn:Hc.
    + destruct (IH true) as [Hs Hn]. destruct inrun.
      * auto.
      * split; [|discriminate].
        rewrite single_spaced_cons, Hs, (Hn eq_refl). reflexivity.
    + destruct (IH false) as [Hs _]. split.
      * rewrite single_spaced_cons, Hc, Hs. reflexivity.
      * intros _. simpl. exact Hc.
Qed.

Lemma starts_with_space_substring0 (n : nat) (s : string) :
  starts_with_space (JS.substring0 n s) = true -> starts_with_space s = true.
Proof. destruct n, s; simpl; intros H; auto; discriminate. Qed.

Lemma substring0_single_spaced (n : nat) :
  forall s, single_spaced s = true -> single_spaced (JS.substring0 n s) = true.
Proof.
  induction n as [|n IH]; intros s H; [reflexivity|].
  destruct s as [|c s]; [reflexivity|].
  cbn [JS.substring0]. rewrite single_spaced_cons in *.
  apply andb_true_iff in H. destruct H as [H H3].
  apply andb_true_iff in H. destruct H as [H1 H2].
  rewrite H1, (IH s H3), andb_true_r. simpl.
  destruct (JS.isWhiteSpace c); [|reflexivity]. simpl in *.
  destruct (starts_with_space (JS.substring0 n s)) eqn:E; [|reflexivity].
  apply starts_with_space_substring0 in E. now rewrite E in H2.
Qed.

Lemma or_empty_Some (s : string) : JS.or_empty (Some s) = s.
Proof.
  unfold JS.or_empty, JS.or_else.
  destruct (String.eqb_spec s EmptyString); congruence.
Qed.

(** The text of a boxed element is cut at 120 and single-spaced. *)
Lemma boxedText_normalised (e : Element) :
  String.length (boxedText e) <= 120 /\ single_spaced (boxedText e) = true.
Proof.
  unfold boxedText. destruct (textContent e) as [t|]; cbn [option_map].
  - rewrite or_empty_Some. split; [apply length_substring0|].
    apply substring0_single_spaced. apply collapse_single_spaced.
  - simpl. split; [lia|reflexivity].
Qed.





(* ===================================================================== *)
(** ** Structural extraction: visibility and order, in both forms *)
(* ===================================================================== *)

Lemma fold_visit_filter (l : list Element) :
  forall acc,
    fold_left PerSelector.visit l acc = numbered_from acc (filter reportable l).
Proof.
  unfold numbered_from.
  induction l as [|e l IH]; intros acc; [reflexivity|].
  cbn [fold_left filter]. rewrite IH.
  unfold PerSelector.visit, reportable.
  destruct (handleThrows e); [reflexivity|].
  destruct (isVisible e); reflexivity.
Qed.

Lemma fold_selectors_flat (page : Page) (sels : list SelectorList) :
  forall acc,
    fold_left (fun elements sel =>
                 fold_left PerSelector.visit (querySelectorAll sel page) elements)
              sels acc
    = fold_left PerSelector.visit
                (flat_map (fun sel => querySelectorAll sel page) sels) acc.
Proof.
  induction sels as [|sel sels IH]; intros acc; [reflexivity|].
  cbn [fold_left flat_map]. now rewrite fold_left_app, IH.
Qed.

(** The per-selector extraction, in closed form. *)
Lemma perSelector_closed_form (page : Page) :
  PerSelector.extractElements page
  = numbered_from [] (filter reportable (by_category page)).
Proof.
  unfold PerSelector.extractElements.
  rewrite fold_selectors_flat, fold_visit_filter. reflexivity.
Qed.

Lemma in_numbered_from (els : list Element) :
  forall acc b,
    In b (numbered_from acc els) ->
    In b acc \/ exists acc' e, In e els /\ b = PerSelector.extracted acc' e.
Proof.
  unfold numbered_from.
  induction els as [|e els IH]; intros acc b H; [now left|].
  cbn [fold_left] in H. apply IH in H. destruct H as [H|(acc' & e' & Hin & ->)].
  - unfold push in H. apply in_app_or in H. destruct H as [H|[<-|[]]].
    + now left.
    + right. exists acc, e. split; [now left|reflexivity].
  - right. exists acc', e'. split; [now right|reflexivity].
Qed.

Lemma in_by_category (page : Page) (e : Element) :
  In e (by_category page) ->
  In e (document page) /\ matches INTERACTIVE_SELECTOR e = true.
Proof.
  unfold by_category. rewrite in_flat_map.
  intros (c & Hc & He). unfold querySelectorAll in He.
  apply filter_In in He. destruct He as [Hd Hm]. split; [assumption|].
  unfold matches in *. cbn [existsb] in Hm. rewrite orb_false_r in Hm.
  apply existsb_exists. exists c. auto.
Qed.

(** C1, as the code has it.  The per-selector form of the structural
    extraction returns a record only for a taxonomy match for which the
    engine's [isVisible] answered true and whose evaluation did not throw: a
    match the engine reports as not visible never appears.  What counts as
    visible is the engine's decision; the code tests no size or style of its
    own.  The single-query form of the current module makes no visibility
    test: it returns one record for every taxonomy match, visible or not. *)
Theorem extraction_visibility_in_both_forms (page : Page) :
  (forall b, In b (PerSelector.extractElements page) ->
     exists elements e,
       In e (document page)
       /\ matches INTERACTIVE_SELECTOR e = true
       /\ isVisible e = true
       /\ handleThrows e = false
       /\ b = PerSelector.extracted elements e)
  /\ (forall i e,
        nth_error (querySelectorAll INTERACTIVE_SELECTOR page) i = Some e ->
        nth_error (extractElements page) i = Some (withSelector (projectElement i e)))
  /\ List.length (extractElements page)
     = List.length (querySelectorAll INTERACTIVE_SELECTOR page).
Proof.
  split; [|split].
  - intros b Hb. rewrite perSelector_closed_form in Hb.
    apply in_numbered_from in Hb. destruct Hb as [[]|(acc & e & He & ->)].
    apply filter_In in He. destruct He as [Hc Hr].
    apply in_by_category in Hc. destruct Hc as [Hd Hm].
    unfold reportable in Hr. apply andb_true_iff in Hr. destruct Hr as [Ht Hv].
    apply negb_true_iff in Ht.
    exists acc, e. repeat split; assumption.
  - intros i e Hn. unfold extractElements, mapRawElements.
    now rewrite nth_error_map, nth_error_mapi, Hn.
  - unfold extractElements, mapRawElements, JS.mapi.
    now rewrite length_map, length_mapi_from.
Qed.

Lemma extraction_visibility_in_both_forms_witness :
  nth_error (extractElements page_unrendered_button) 0
  = Some (withSelector (projectElement 0 (node "BUTTON" [] "Menu" (box 0 0 0 0)))).
Proof.
  apply (proj1 (proj2 (extraction_visibility_in_both_forms page_unrendered_button))).
  reflexivity.
Defined.

(** C1 fails on the current module: a button that is rendered with no size
    matches the taxonomy, is reported by the engine as not visible, and is
    returned all the same.  The statement refuted asks of every record only
    that its element be visible in one of the two senses, engine-reported or
    of non-zero size. *)
Lemma extractElements_reports_unrendered_button :
  ~ (forall page b,
       In b (extractElements page) ->
       exists i e,
         In e (document page) /\ raw b = projectElement i e
         /\ (isVisible e = true
             \/ (JS.gt (rect_width (boundingClientRect e)) 0 = true
                 /\ JS.gt (rect_height (boundingClientRect e)) 0 = true))).
Proof.
  intros H.
  destruct (H page_unrendered_button
              (withSelector (projectElement 0 (node "BUTTON" [] "Menu" (box 0 0 0 0)))))
    as (i & e & He & _ & Hv).
  - left. reflexivity.
  - destruct He as [<-|[]]. destruct Hv as [Hv|[Hv _]]; discriminate Hv.
Qed.

(** The per-selector form follows the answer of the engine, not the box: an
    element with [display: contents], whose own box is empty and which the
    engine reports visible, is returned. *)
Lemma perSelector_follows_engine_answer :
  map (fun r : ExtractedElement => (id r, selector r, action r))
      (PerSelector.extractElements page_display_contents_button)
  = [("menu"%string, "#menu"%string, click)].
Proof. reflexivity. Qed.

(** C5, as the code has it.  The per-selector form returns its records by
    taxonomy category (buttons, links, inputs, textareas, selects,
    role=button, tabindex) and in document order within a category, an
    element being reported once for every category it matches.  The
    single-query form of the current module returns the taxonomy matches in
    document order, whatever their category. *)
Theorem extraction_order_in_both_forms (page : Page) :
  PerSelector.extractElements page
  = numbered_from [] (filter reportable (by_category page))
  /\ extractElements page
     = mapRawElements
         (JS.mapi projectElement
                  (filter (matches INTERACTIVE_SELECTOR) (document page)))
  /\ map tag (map raw (extractElements page))
     = map (fun e => JS.toLowerCase (tagName e))
           (filter (matches INTERACTIVE_SELECTOR) (document page)).
Proof.
  split; [apply perSelector_closed_form|]. split; [reflexivity|].
  unfold extractElements, mapRawElements, querySelectorAll, JS.mapi.
  generalize 0.
  induction (filter (matches INTERACTIVE_SELECTOR) (document page)) as [|e l IH];
    intros k; [reflexivity|].
  simpl. f_equal. apply IH.
Qed.

(** C5 fails on the current module: for a link followed by a button the
    link is reported first, while category order puts the button first. *)
Lemma extractElements_link_before_button :
  map (fun r : ExtractedElement => (tag r, href r))
      (extractElements page_link_then_button)
  = [("a"%string, Some "/next"%string); ("button"%string, None)]
  /\ map (fun e => JS.toLowerCase (tagName e)) (by_category page_link_then_button)
     = ["button"%string; "a"%string]
  /\ ~ (forall page,
          map tag (map raw (extractElements page))
          = map (fun e => JS.toLowerCase (tagName e)) (by_category page)).
Proof.
  split; [reflexivity|]. split; [reflexivity|].
  intros H. specialize (H page_link_then_button). discriminate H.
Qed.

(* ===================================================================== *)
(** ** Session manager *)
(* ===================================================================== *)

Lemma contextCloses_app (c : Handle) (t u : list Call) :
  contextCloses c (t ++ u) = contextCloses c t + contextCloses c u.
Proof.
  induction t as [|[] t IH]; simpl; auto. rewrite IH. lia.
Qed.

Lemma browserCloses_app (t u : list Call) :
  browserCloses (t ++ u) = browserCloses t + browserCloses u.
Proof.
  induction t as [|[] t IH]; simpl; auto.
Qed.

Lemma issuedUserAgents_app (t u : list Call) :
  issuedUserAgents (t ++ u) = issuedUserAgents t ++ issuedUserAgents u.
Proof.
  induction t as [|[] t IH]; simpl; auto. now rewrite IH.
Qed.

(** Case analysis on every engine answer and every branch in sight. *)
Ltac branch :=
  match goal with
  | H : context [match ?x with _ => _ end] |- _ =>
      lazymatch x with
      | context [match _ with _ => _ end] => fail
      | _ => destruct x eqn:?
      end
  | |- context [match ?x with _ => _ end] =>
      lazymatch x with
      | context [match _ with _ => _ end] => fail
      | _ => destruct x eqn:?
      end
  | H : context [if ?x then _ else _] |- _ =>
      lazymatch x with
      | context [if _ then _ else _] => fail
      | _ => destruct x eqn:?
      end
  end.

Ltac unfold_session :=
  unfold withPage, openSession, getBrowser, randomDelay, getNextUserAgent,
    getNextViewport, try_finally, perform, note, bind, ret, gets, modify in *;
  cbn [fst snd trace browser options uaIndex viewportIndex pending
       set_trace set_browser set_options set_uaIndex set_viewportIndex
       set_pending] in *.

(** The calls [withPage] makes before its [try] close nothing. *)
Lemma openSession_calls engine (w w1 : World) (c p : Handle) :
  openSession engine w = (Returned (c, p), w1) ->
  exists setup,
    trace w1 = trace w ++ setup
    /\ contextCloses c setup = 0 /\ browserCloses setup = 0.
Proof.
  intros H. unfold_session.
  repeat (branch; cbn [fst snd trace browser options uaIndex viewportIndex pending
       set_trace set_browser set_options set_uaIndex set_viewportIndex
       set_pending] in *; try discriminate);
    injection H as <- <- <-; cbn [trace]; rewrite <- ?app_assoc;
    eexists; (split; [reflexivity|split; reflexivity]).
Qed.

(** The paths of [withPage] that reach the [try].  Once the session is open
    and the work function is called, then, whether the work returns or
    throws, [withPage] closes the context it created exactly once, after the
    work, and never closes the browser: the calls made before the work close
    nothing, the one call made after it is the close of that context, and the
    browser handle is the one the work left.  The outcome of the work is
    passed on, unless the close itself fails. *)
Theorem withPage_closes_context_once
    (engine : Engine) (T : Type) (fn : Handle -> M T)
    (w w1 w2 : World) (c p : Handle) (r : Outcome T) :
  openSession engine w = (Returned (c, p), w1) ->
  fn p (set_trace
          (trace w1
           ++ [SetTimeout (Qfloor (mathRandom engine (trace w1) * 1000) + 500)%Z])
          w1) = (r, w2) ->
  (exists setup,
      trace w1 = trace w ++ setup
      /\ contextCloses c setup = 0 /\ browserCloses setup = 0)
  /\ trace (snd (withPage engine fn w)) = trace w2 ++ [ContextClose c]
  /\ contextCloses c (trace (snd (withPage engine fn w)))
     = S (contextCloses c (trace w2))
  /\ browserCloses (trace (snd (withPage engine fn w))) = browserCloses (trace w2)
  /\ browser (snd (withPage engine fn w)) = browser w2
  /\ fst (withPage engine fn w)
     = match rejects engine (ContextClose c) (trace w2) with
       | None => r
       | Some err => Thrown err
       end.
Proof.
  intros Hopen Hfn.
  split; [exact (openSession_calls engine w w1 c p Hopen)|].
  assert (Hrun : withPage engine fn w
                 = (match rejects engine (ContextClose c) (trace w2) with
                    | None => r
                    | Some err => Thrown err
                    end,
                    set_trace (trace w2 ++ [ContextClose c]) w2)).
  { unfold withPage at 1. unfold bind at 1. rewrite Hopen.
    unfold randomDelay, try_finally, note, perform, bind, ret, gets, modify.
    cbn [fst snd]. rewrite Hfn.
    destruct (rejects engine (ContextClose c) (trace w2)); reflexivity. }
  rewrite Hrun. cbn [fst snd trace browser set_trace].
  rewrite contextCloses_app, browserCloses_app. cbn [contextCloses browserCloses].
  rewrite Nat.eqb_refl. repeat split; lia.
Qed.

Lemma withPage_closes_context_once_witness :
  (trace (snd (withPage reliable_engine work_throws world_with_browser))
   = [Launch None; NewContext 0 None (Some (mkViewport 1920 1080));
      AddInitScript 1; NewPage 1; SetDefaultTimeout 3 30000; SetTimeout 1000;
      ContextClose 1])
  /\ fst (withPage reliable_engine work_throws world_with_browser)
     = Thrown "navigation timeout"
  /\ browser (snd (withPage reliable_engine work_throws world_with_browser))
     = Some 0.
Proof.
  pose proof (withPage_closes_context_once reliable_engine nat work_throws
                world_with_browser
                (snd (openSession reliable_engine world_with_browser))
                (set_trace
                   (trace (snd (openSession reliable_engine world_with_browser))
                    ++ [SetTimeout 1000])
                   (snd (openSession reliable_engine world_with_browser)))
                1 3 (Thrown "navigation timeout") eq_refl eq_refl)
    as (_ & Ht & _ & _ & Hb & Hr).
  split; [exact Ht|]. split; [exact Hr|exact Hb].
Defined.

(** The paths of [withPage] that do not reach the [try]: when the setup
    fails, [withPage] throws that error without calling the work function,
    and it has closed nothing, whatever the setup had created. *)
Lemma withPage_setup_failure engine (T : Type) (fn : Handle -> M T)
                             (w w1 : World) (err : string) :
  openSession engine w = (Thrown err, w1) ->
  withPage engine fn w = (Thrown err, w1)
  /\ forall c, contextCloses c (trace w1) = contextCloses c (trace w).
Proof.
  intros H. split.
  - unfold withPage, bind. now rewrite H.
  - intros c0. unfold_session.
    repeat (branch; cbn [fst snd trace browser options uaIndex viewportIndex pending
         set_trace set_browser set_options set_uaIndex set_viewportIndex
         set_pending] in *; try discriminate);
      injection H as <- <-;
      cbn [trace set_trace set_browser set_uaIndex set_viewportIndex];
      repeat rewrite contextCloses_app; cbn [contextCloses]; lia.
Qed.

(** C2, at a failing input.  The context is created before the [try]
    (the calls [newContext], [addInitScript], [newPage] stand outside it).
    On an engine that accepts [newContext] and [addInitScript] and rejects
    [newPage], [withPage] creates context 1, throws the error of [newPage]
    without calling the work function, and never closes the context it
    created: this exit path releases nothing.  The browser is not closed
    either. *)
Theorem withPage_setup_failure_skips_work_and_close :
  rejects engine_without_pages
          (NewContext 0 None (Some (mkViewport 1920 1080)))
          (trace world_with_browser) = None
  /\ (forall (T : Type) (fn : Handle -> M T),
        withPage engine_without_pages fn world_with_browser
        = (Thrown "Target closed",
           set_trace [Launch None;
                      NewContext 0 None (Some (mkViewport 1920 1080));
                      AddInitScript 1; NewPage 1]
                     (set_viewportIndex 1 world_with_browser)))
  /\ nth_error (trace (snd (withPage engine_without_pages work_returns
                                     world_with_browser))) 1
     = Some (NewContext 0 None (Some (mkViewport 1920 1080)))
  /\ contextCloses 1 (trace (snd (withPage engine_without_pages work_returns
                                           world_with_browser))) = 0
  /\ browserCloses (trace (snd (withPage engine_without_pages work_returns
                                         world_with_browser))) = 0.
Proof.
  split; [reflexivity|]. split; [|repeat split].
  intros T fn.
  apply (withPage_setup_failure engine_without_pages T fn world_with_browser).
  reflexivity.
Qed.

(** One call on the pool: the entry under the cursor is returned, then the
    cursor moves on, modulo the length of the table. *)
Lemma getNextUserAgent_step (w : World) :
  getNextUserAgent w
  = (Returned (nth_error USER_AGENTS (uaIndex w)),
     set_uaIndex ((uaIndex w + 1) mod List.length USER_AGENTS) w).
Proof. reflexivity. Qed.

(** One session under rotation: the user-agent under the cursor goes to
    [newContext], and the cursor moves on. *)
Lemma withPage_issues_next engine (T : Type) (fn : Handle -> M T) (w : World) :
  (forall c t, rejects engine (Launch c) t = None) ->
  rotateUA (options w) = Some true ->
  JS.truthy (userAgent (options w)) = false ->
  quiet fn ->
  options (snd (withPage engine fn w)) = options w
  /\ uaIndex (snd (withPage engine fn w))
     = (uaIndex w + 1) mod List.length USER_AGENTS
  /\ issuedUserAgents (trace (snd (withPage engine fn w)))
     = issuedUserAgents (trace w) ++ [nth_error USER_AGENTS (uaIndex w)].
Proof.
  intros Hlaunch Hrot Hua Hquiet.
  set (P := fun w' =>
    options w' = options w
    /\ uaIndex w' = (uaIndex w + 1) mod List.length USER_AGENTS
    /\ issuedUserAgents (trace w')
       = issuedUserAgents (trace w) ++ [nth_error USER_AGENTS (uaIndex w)]).
  change (P (snd (withPage engine fn w))).
  unfold_session.
  destruct (browser w) as [b|] eqn:Hb;
    [|rewrite Hlaunch];
    cbn [fst snd trace browser options uaIndex viewportIndex pending
         set_trace set_browser set_options set_uaIndex set_viewportIndex
         set_pending];
    rewrite ?Hrot, ?Hua; cbn [negb andb];
    repeat (branch;
            cbn [fst snd trace browser options uaIndex viewportIndex pending
                 set_trace set_browser set_options set_uaIndex set_viewportIndex
                 set_pending] in *; try discriminate);
    subst P;
    repeat match goal with
           | H : fn ?p ?w0 = (_, _) |- _ =>
               let Hq := fresh "Hq" in
               pose proof (Hquiet p w0) as Hq; rewrite H in Hq;
               cbn [fst snd trace browser options uaIndex viewportIndex pending
                    set_trace set_browser set_options set_uaIndex
                    set_viewportIndex set_pending] in Hq;
               destruct Hq as (? & ? & ?); clear H
           end;
    cbn [fst snd trace browser options uaIndex viewportIndex pending
         set_trace set_browser set_options set_uaIndex set_viewportIndex
         set_pending];
    rewrite ?issuedUserAgents_app in *; cbn [issuedUserAgents] in *;
    rewrite ?app_nil_r in *;
    repeat split; congruence.
Qed.

Lemma sessions_round_robin engine (T : Type) (works : list (Handle -> M T)) :
  (forall c t, rejects engine (Launch c) t = None) ->
  Forall quiet works ->
  forall w,
    rotateUA (options w) = Some true ->
    JS.truthy (userAgent (options w)) = false ->
    uaIndex w < List.length USER_AGENTS ->
    issuedUserAgents (trace (sessions engine works w))
    = issuedUserAgents (trace w)
      ++ map (fun k => nth_error USER_AGENTS
                         ((uaIndex w + k) mod List.length USER_AGENTS))
             (seq 0 (List.length works)).
Proof.
  intros Hlaunch Hq. induction Hq as [|fn works Hfn Hq IH]; intros w Hrot Hua Hlt.
  - simpl. now rewrite app_nil_r.
  - destruct (withPage_issues_next engine T fn w Hlaunch Hrot Hua Hfn)
      as (Ho & Hi & Ht).
    cbn [sessions List.length seq map].
    rewrite IH.
    + rewrite Ht, Hi, <- app_assoc. cbn [app]. f_equal.
      rewrite Nat.add_0_r, (Nat.mod_small _ _ Hlt). f_equal.
      rewrite <- seq_shift, map_map. apply map_ext. intros k.
      rewrite Nat.Div0.add_mod_idemp_l.
      f_equal. f_equal. lia.
    + now rewrite Ho.
    + now rewrite Ho.
    + rewrite Hi. apply Nat.mod_upper_bound. discriminate.
Qed.

(** C9, as the code has it.  Each call on the pool returns the table entry
    under the cursor and then advances the cursor modulo the table length; so
    with rotateUA set and no fixed user-agent, N sessions in a row hand the
    engine the user-agents of the table in round-robin order, starting at the
    cursor, modulo the table length. *)
Theorem user_agents_round_robin
    (engine : Engine) (T : Type) (works : list (Handle -> M T)) (w : World) :
  (forall c t, rejects engine (Launch c) t = None) ->
  Forall quiet works ->
  rotateUA (options w) = Some true ->
  JS.truthy (userAgent (options w)) = false ->
  uaIndex w < List.length USER_AGENTS ->
  getNextUserAgent w
  = (Returned (nth_error USER_AGENTS (uaIndex w)),
     set_uaIndex ((uaIndex w + 1) mod List.length USER_AGENTS) w)
  /\ issuedUserAgents (trace (sessions engine works w))
     = issuedUserAgents (trace w)
       ++ map (fun k => nth_error USER_AGENTS
                          ((uaIndex w + k) mod List.length USER_AGENTS))
              (seq 0 (List.length works))
  /\ uaIndex (sessions engine works w) < List.length USER_AGENTS.
Proof.
  intros Hlaunch Hq Hrot Hua Hlt.
  split; [apply getNextUserAgent_step|].
  split; [now apply sessions_round_robin|].
  revert w Hrot Hua Hlt.
  induction Hq as [|fn works Hfn Hq IH]; intros w Hrot Hua Hlt; [exact Hlt|].
  destruct (withPage_issues_next engine T fn w Hlaunch Hrot Hua Hfn)
    as (Ho & Hi & _).
  cbn [sessions]. apply IH.
  - now rewrite Ho.
  - now rewrite Ho.
  - rewrite Hi. apply Nat.mod_upper_bound. discriminate.
Qed.

Lemma quiet_work_returns : quiet work_returns.
Proof. intros p w. repeat split. Qed.

Lemma user_agents_round_robin_witness :
  issuedUserAgents
    (trace (sessions reliable_engine
              [work_returns; work_returns; work_returns; work_returns;
               work_returns; work_returns]
              (set_options rotating_options initial_world)))
  = map (fun k => nth_error USER_AGENTS (k mod 4)) [0; 1; 2; 3; 4; 5].
Proof.
  refine (proj1 (proj2 (user_agents_round_robin reliable_engine nat
            [work_returns; work_returns; work_returns; work_returns;
             work_returns; work_returns]
            (set_options rotating_options initial_world) _ _ _ _ _))).
  - intros c t. reflexivity.
  - repeat constructor; exact quiet_work_returns.
  - reflexivity.
  - reflexivity.
  - simpl. lia.
Defined.

(** C9 fails as worded: a call does not return the entry at the new cursor
    position.  From cursor 0 the first entry is returned, and the cursor is
    then at the second. *)
Lemma getNextUserAgent_returns_entry_before_advance :
  fst (getNextUserAgent initial_world) = Returned (nth_error USER_AGENTS 0)
  /\ uaIndex (snd (getNextUserAgent initial_world)) = 1
  /\ ~ (forall w,
          uaIndex w < List.length USER_AGENTS ->
          fst (getNextUserAgent w)
          = Returned (nth_error USER_AGENTS (uaIndex (snd (getNextUserAgent w))))).
Proof.
  split; [reflexivity|]. split; [reflexivity|].
  intros H. specialize (H initial_world). simpl in H.
  assert (H0 : 0 < 4) by lia. specialize (H H0). discriminate H.
Qed.

(** Awaiting [close()] is the unawaited call followed by its continuation,
    when the engine confirms the close. *)
Lemma close_awaited engine (w : World) :
  pending w = [] ->
  (forall b, browser w = Some b ->
             rejects engine (BrowserClose b) (trace w) = None) ->
  snd (close engine w) = settle (close_unawaited engine w).
Proof.
  intros Hp Hr. unfold close, close_unawaited, settle, perform, bind, gets, modify, ret.
  destruct w as [ua vp [b|] o t pe]; cbn in *; subst pe; cbn; [|reflexivity].
  now rewrite (Hr b eq_refl).
Qed.

(** What [setOptions] does: it returns normally, installs the new options
    whole, and, if a browser exists, calls its [close] without waiting, so
    that on return the handle is still installed and the next [getBrowser]
    hands it out again without a launch. *)
Lemma setOptions_effect engine (o : StealthOptions) (w : World) :
  fst (setOptions engine o w) = Returned tt
  /\ options (snd (setOptions engine o w)) = o
  /\ browser (snd (setOptions engine o w)) = browser w
  /\ (browser w = None -> snd (setOptions engine o w) = set_options o w)
  /\ (forall b, browser w = Some b ->
        trace (snd (setOptions engine o w)) = trace w ++ [BrowserClose b]
        /\ pending (snd (setOptions engine o w))
           = pending w ++ [mkTask b (rejects engine (BrowserClose b) (trace w))]
        /\ getBrowser engine (snd (setOptions engine o w))
           = (Returned b, snd (setOptions engine o w))).
Proof.
  unfold setOptions, close_unawaited, getBrowser, bind, gets, modify, ret.
  destruct w as [ua vp [b|] o0 t pe]; cbn.
  - split; [reflexivity|]. split; [reflexivity|]. split; [reflexivity|].
    split; [discriminate|].
    intros b0 H. injection H as <-. repeat split.
  - split; [reflexivity|]. split; [reflexivity|]. split; [reflexivity|].
    split; [reflexivity|]. discriminate.
Qed.

(** C3, at a failing input.  A manager whose browser is handle 0 is
    reconfigured on an engine that rejects nothing.  [setOptions] returns
    normally with the new options installed and [close] called on the
    browser, but the handle is still installed when it returns: the next
    [getBrowser] hands out the closed handle 0 and launches nothing.  The
    handle is cleared only when the pending continuation runs. *)
Theorem setOptions_returns_before_handle_cleared :
  browser world_with_browser = Some 0
  /\ fst (setOptions reliable_engine rotating_options world_with_browser)
     = Returned tt
  /\ options (snd (setOptions reliable_engine rotating_options world_with_browser))
     = rotating_options
  /\ trace (snd (setOptions reliable_engine rotating_options world_with_browser))
     = [Launch None; BrowserClose 0]
  /\ browser (snd (setOptions reliable_engine rotating_options world_with_browser))
     = Some 0
  /\ pending (snd (setOptions reliable_engine rotating_options world_with_browser))
     = [mkTask 0 None]
  /\ getBrowser reliable_engine
       (snd (setOptions reliable_engine rotating_options world_with_browser))
     = (Returned 0,
        snd (setOptions reliable_engine rotating_options world_with_browser))
  /\ browser
       (settle (snd (setOptions reliable_engine rotating_options world_with_browser)))
     = None
  /\ fst (setOptions reliable_engine rotating_options initial_world) = Returned tt.
Proof. repeat split. Qed.

(* ===================================================================== *)
(** ** Further properties of the extraction *)
(* ===================================================================== *)

Lemma generateSelector_nonempty (attrs : SelectorAttrs) :
  generateSelector attrs <> EmptyString.
Proof.
  unfold generateSelector.
  destruct (JS.truthy (sa_id attrs)); [discriminate|].
  destruct (JS.truthy (sa_dataTestid attrs)); [discriminate|].
  destruct (JS.truthy (sa_ariaLabel attrs)); [discriminate|].
  destruct (JS.truthy (sa_name attrs)); [discriminate|].
  unfold JS.or_else. destruct (sa_tag attrs) as [t|]; [|discriminate].
  destruct (String.eqb_spec t EmptyString); [discriminate|assumption].
Qed.

Lemma or_else_nonempty_default (v : option string) (d : string) :
  d <> EmptyString -> JS.or_else v d <> EmptyString.
Proof.
  intros Hd. unfold JS.or_else. destruct v as [s|]; [|assumption].
  destruct (String.eqb_spec s EmptyString); assumption.
Qed.

Lemma or_else_of_empty (v : option string) (d : string) :
  JS.or_empty v = EmptyString -> JS.or_else v d = d.
Proof.
  unfold JS.or_empty, JS.or_else. destruct v as [s|]; [|reflexivity].
  destruct (String.eqb_spec s EmptyString); [reflexivity|contradiction].
Qed.

Lemma nat_to_string_inj (n m : nat) :
  JS.nat_to_string n = JS.nat_to_string m -> n = m.
Proof.
  assert (Hnn : forall k, Nat.to_uint k <> Decimal.Nil).
  { intros k. pose proof (DecimalNat.Unsigned.to_of (Nat.to_uint k)) as E.
    rewrite DecimalNat.Unsigned.of_to in E. rewrite E.
    apply DecimalFacts.unorm_nonnil. }
  unfold JS.nat_to_string. intros H.
  apply (f_equal NilZero.uint_of_string) in H.
  rewrite !NilZero.usu in H by apply Hnn.
  injection H as H. now apply DecimalNat.Unsigned.to_uint_inj.
Qed.

Lemma in_collect_nth page sel conf textOnly r :
  In r (collect page sel conf textOnly) ->
  exists i e,
    nth_error (querySelectorAll sel page) i = Some e
    /\ collectOne (innerWidth page) (innerHeight page) conf textOnly i e = Some r.
Proof.
  unfold collect. rewrite in_filter_Boolean. intros H.
  apply in_mapi in H. destruct H as (i & e & Hn & Hr). eauto.
Qed.

(** A record of [collect] and the record of [extractElements] for the same
    match differ only in text, box and confidence, and, when [collect] looks
    for text, in the action. *)
Lemma collectOne_identity vw vh conf textOnly i e r :
  collectOne vw vh conf textOnly i e = Some r ->
  id r = id (projectElement i e)
  /\ tag r = tag (projectElement i e)
  /\ type r = type (projectElement i e)
  /\ name r = name (projectElement i e)
  /\ placeholder r = placeholder (projectElement i e)
  /\ href r = href (projectElement i e)
  /\ attributes r = attributes (projectElement i e)
  /\ selector (withSelector r) = selector (withSelector (projectElement i e))
  /\ action r = (if textOnly then click else action (projectElement i e)).
Proof.
  unfold collectOne.
  destruct (negb (visibleInViewport vw vh (boundingClientRect e)));
    [discriminate|].
  destruct (textOnly && (String.length (boxedText e) <? 2)); [discriminate|].
  intros H. injection H as <-.
  unfold withSelector, projectElement. cbn.
  repeat split.
  destruct textOnly; [now rewrite !orb_true_r|now rewrite !orb_false_r].
Qed.

Lemma projectElement_action_not_submit (i : nat) (e : Element) :
  action (projectElement i e) <> submit.
Proof.
  unfold projectElement. cbn [action].
  repeat match goal with
         | |- context [if ?c then _ else _] => destruct c
         end; discriminate.
Qed.

Lemma in_extractElements page r :
  In r (extractElements page) ->
  exists i e,
    nth_error (querySelectorAll INTERACTIVE_SELECTOR page) i = Some e
    /\ r = withSelector (projectElement i e).
Proof.
  unfold extractElements, mapRawElements. intros H.
  apply in_map_iff in H. destruct H as (r0 & <- & H).
  apply in_mapi in H. destruct H as (i & e & Hn & ->). eauto.
Qed.

Lemma in_perSelector page r :
  In r (PerSelector.extractElements page) ->
  exists elements e,
    In e (document page) /\ matches INTERACTIVE_SELECTOR e = true
    /\ reportable e = true /\ r = PerSelector.extracted elements e.
Proof.
  rewrite perSelector_closed_form. intros H.
  apply in_numbered_from in H. destruct H as [[]|(acc & e & He & ->)].
  apply filter_In in He. destruct He as [Hc Hr].
  apply in_by_category in Hc. destruct Hc as [Hd Hm].
  exists acc, e. auto.
Qed.

Lemma in_scanner page (b : ExtractedElement) :
  In b (extractVisibleElementsWithBoxes page) ->
  b = withSelector (raw b)
  /\ exists (i : nat) (e : Element) (textOnly : bool),
       In e (document page)
       /\ collectOne (innerWidth page) (innerHeight page)
                     (if textOnly then CONF_FALLBACK else CONF_PRIMARY)
                     textOnly i e = Some (raw b)
       /\ (textOnly = false ->
           nth_error (querySelectorAll INTERACTIVE_SELECTOR page) i = Some e)
       /\ (textOnly = true <-> primaryTier page = []).
Proof.
  intros H. split.
  - unfold extractVisibleElementsWithBoxes, mapRawElements in H.
    apply in_map_iff in H. destruct H as (r0 & <- & _). reflexivity.
  - unfold extractVisibleElementsWithBoxes, mapRawElements in H.
    apply in_map_iff in H. destruct H as (r0 & <- & H). cbn [raw withSelector].
    destruct (primaryTier page) as [|r1 l] eqn:Hp; cbn [List.length Nat.eqb] in H.
    + unfold fallbackTier in H. apply in_firstn in H.
      apply in_collect_nth in H. destruct H as (i & e & Hn & Hc).
      exists i, e, true. split.
      { apply nth_error_In in Hn. unfold querySelectorAll in Hn.
        now apply filter_In in Hn. }
      split; [exact Hc|]. split; [discriminate|]. split; reflexivity.
    + rewrite <- Hp in H. unfold primaryTier in H.
      apply in_collect_nth in H. destruct H as (i & e & Hn & Hc).
      exists i, e, false. split.
      { apply nth_error_In in Hn. unfold querySelectorAll in Hn.
        now apply filter_In in Hn. }
      split; [exact Hc|]. split; [intros _; exact Hn|].
      split; discriminate.
Qed.

(** X1.  Every record of the three extraction functions carries an id and a
    selector that are not empty, and an action that is never [submit]. *)
Theorem records_always_addressable (page : Page) (r : ExtractedElement) :
  In r (extractElements page)
  \/ In r (extractVisibleElementsWithBoxes page)
  \/ In r (PerSelector.extractElements page) ->
  id r <> EmptyString /\ selector r <> EmptyString /\ action r <> submit.
Proof.
  intros [H|[H|H]].
  - apply in_extractElements in H. destruct H as (i & e & _ & ->).
    split; [|split].
    + apply or_else_nonempty_default. discriminate.
    + apply generateSelector_nonempty.
    + apply projectElement_action_not_submit.
  - apply in_scanner in H. destruct H as (Hb & i & e & t & _ & Hc & _).
    apply collectOne_identity in Hc.
    destruct Hc as (Hid & _ & _ & _ & _ & _ & _ & _ & Ha).
    split; [|split].
    + change (id r) with (id (raw r)). rewrite Hid.
      apply or_else_nonempty_default. discriminate.
    + rewrite Hb. apply generateSelector_nonempty.
    + change (action r) with (action (raw r)). rewrite Ha.
      destruct t; [discriminate|apply projectElement_action_not_submit].
  - apply in_perSelector in H. destruct H as (acc & e & _ & _ & _ & ->).
    split; [|split].
    + apply or_else_nonempty_default. discriminate.
    + apply generateSelector_nonempty.
    + unfold PerSelector.extracted. cbn [action raw].
      repeat match goal with
             | |- context [if ?c then _ else _] => destruct c
             end; discriminate.
Qed.

Lemma records_always_addressable_witness :
  let r := withSelector
             (projectElement 1 (node "DIV" [("tabindex", EmptyString)] "Card"
                                     (box 10 50 (606 # 10) 24))) in
  In r (extractElements page_button_with_tabindex)
  /\ id r <> EmptyString /\ selector r <> EmptyString /\ action r <> submit.
Proof.
  intros r.
  assert (H : In r (extractElements page_button_with_tabindex))
    by (right; left; reflexivity).
  split; [exact H|].
  apply (records_always_addressable page_button_with_tabindex r).
  left. exact H.
Defined.

(** X2.  While the primary tier is not empty, every record of the visual
    scanner agrees with a record of the structural extraction of the same
    page on id, tag, type, name, placeholder, href, attributes, action and
    selector: both endpoints name an element the same way. *)
Theorem primary_tier_agrees_with_structural (page : Page) (b : ExtractedElement) :
  In b (extractVisibleElementsWithBoxes page) ->
  primaryTier page <> [] ->
  exists s,
    In s (extractElements page)
    /\ id b = id s /\ tag b = tag s /\ type b = type s /\ name b = name s
    /\ placeholder b = placeholder s /\ href b = href s
    /\ attributes b = attributes s /\ action b = action s
    /\ selector b = selector s.
Proof.
  intros Hin Hne. apply in_scanner in Hin.
  destruct Hin as (Hb & i & e & t & _ & Hc & Hn & Hiff).
  destruct t; [exfalso; apply Hne; now apply Hiff|].
  specialize (Hn eq_refl).
  apply collectOne_identity in Hc.
  destruct Hc as (H1 & H2 & H3 & H4 & H5 & H6 & H7 & H8 & H9).
  exists (withSelector (projectElement i e)). split.
  - apply (nth_error_In _ i). unfold extractElements, mapRawElements.
    now rewrite nth_error_map, nth_error_mapi, Hn.
  - rewrite Hb at 9. cbn [raw withSelector] in *. auto 10.
Qed.

Lemma primary_tier_agrees_with_structural_witness :
  let b := hd (withSelector (projectElement 0 (node "x" [] "x" (box 0 0 0 0))))
              (extractVisibleElementsWithBoxes page_button_go) in
  exists s,
    In s (extractElements page_button_go)
    /\ id b = id s /\ tag b = tag s /\ type b = type s /\ name b = name s
    /\ placeholder b = placeholder s /\ href b = href s
    /\ attributes b = attributes s /\ action b = action s
    /\ selector b = selector s.
Proof.
  intros b.
  apply (primary_tier_agrees_with_structural page_button_go b).
  - left. reflexivity.
  - discriminate.
Defined.

Lemma in_scanner_nth page (b : ExtractedElement) :
  In b (extractVisibleElementsWithBoxes page) ->
  exists (i : nat) (e : Element) (textOnly : bool),
    nth_error (querySelectorAll
                 (if textOnly then FALLBACK_SELECTOR else INTERACTIVE_SELECTOR)
                 page) i = Some e
    /\ collectOne (innerWidth page) (innerHeight page)
                  (if textOnly then CONF_FALLBACK else CONF_PRIMARY)
                  textOnly i e = Some (raw b).
Proof.
  unfold extractVisibleElementsWithBoxes, mapRawElements. intros H.
  apply in_map_iff in H. destruct H as (r0 & <- & H). cbn [raw withSelector].
  destruct (primaryTier page) as [|r1 l] eqn:Hp; cbn [List.length Nat.eqb] in H.
  - unfold fallbackTier in H. apply in_firstn in H.
    apply in_collect_nth in H. destruct H as (i & e & Hn & Hc).
    exists i, e, true. split; assumption.
  - rewrite <- Hp in H. unfold primaryTier in H.
    apply in_collect_nth in H. destruct H as (i & e & Hn & Hc).
    exists i, e, false. split; assumption.
Qed.

(** X3.  Every record of the visual scanner is the projection of a match
    of its tier, and its selector is the one the priority rule gives for the
    element it was projected from, in either tier. *)
Theorem scanner_selector_priority (page : Page) (b : ExtractedElement) :
  In b (extractVisibleElementsWithBoxes page) ->
  (exists (i : nat) (e : Element) (textOnly : bool),
      nth_error (querySelectorAll
                   (if textOnly then FALLBACK_SELECTOR else INTERACTIVE_SELECTOR)
                   page) i = Some e
      /\ collectOne (innerWidth page) (innerHeight page)
                    (if textOnly then CONF_FALLBACK else CONF_PRIMARY)
                    textOnly i e = Some (raw b))
  /\ (forall conf textOnly i e,
        collectOne (innerWidth page) (innerHeight page) conf textOnly i e
        = Some (raw b) ->
        tagName e <> EmptyString ->
        selector b = selector_by_priority e).
Proof.
  intros Hin. split; [now apply in_scanner_nth|].
  intros conf textOnly i e Hc Htag.
  apply in_scanner in Hin. destruct Hin as (Hb & _).
  apply collectOne_identity in Hc.
  destruct Hc as (_ & _ & _ & _ & _ & _ & _ & Hs & _).
  rewrite Hb, Hs. now apply selector_of_projection.
Qed.

Lemma scanner_selector_priority_witness :
  let b := hd (withSelector (projectElement 0 (node "x" [] "x" (box 0 0 0 0))))
              (extractVisibleElementsWithBoxes page_paragraph) in
  selector b
  = selector_by_priority (hd (node "x" [] "x" (box 0 0 0 0))
                             (document page_paragraph)).
Proof.
  intros b.
  assert (Hin : In b (extractVisibleElementsWithBoxes page_paragraph))
    by (vm_compute; left; reflexivity).
  apply (proj2 (scanner_selector_priority page_paragraph b Hin)
           CONF_FALLBACK true 0).
  - vm_compute. reflexivity.
  - discriminate.
Defined.

Lemma matched_action_none (i : nat) (e : Element) :
  matches INTERACTIVE_SELECTOR e = true ->
  action (projectElement i e) = none ->
  getAttribute "tabindex" e = Some EmptyString.
Proof.
  intros Hm Ha.
  unfold projectElement in Ha. cbn [action] in Ha.
  unfold matches, INTERACTIVE_SELECTOR, sel_button, sel_link, sel_input,
    sel_textarea, sel_select, sel_role_button, sel_tabindex,
    matches_compound, matches_simple, attr_value_is in Hm.
  cbn [existsb forallb] in Hm.
  change (String.eqb "role" "type") with false in Hm.
  change (String.eqb "tabindex" "type") with false in Hm.
  destruct (String.eqb (JS.toLowerCase (tagName e)) "button"); [discriminate|].
  destruct (String.eqb (JS.toLowerCase (tagName e)) "a"); [discriminate|].
  assert (Hrole : match getAttribute "role" e with
                  | Some r => String.eqb r "button"
                  | None => false
                  end = false).
  { destruct (getAttribute "role" e) as [r|]; [|reflexivity].
    destruct (String.eqb r "button"); [discriminate|reflexivity]. }
  rewrite Hrole in Hm, Ha. cbn [orb andb] in Hm, Ha.
  destruct (JS.truthy (getAttribute "tabindex" e)) eqn:Ht; [discriminate|].
  destruct (String.eqb (JS.toLowerCase (tagName e)) "input"); [discriminate|].
  destruct (String.eqb (JS.toLowerCase (tagName e)) "textarea"); [discriminate|].
  destruct (String.eqb (JS.toLowerCase (tagName e)) "select"); [discriminate|].
  cbn [orb andb] in Hm.
  destruct (getAttribute "tabindex" e) as [v|]; [|discriminate].
  unfold JS.truthy in Ht. apply negb_false_iff in Ht.
  apply String.eqb_eq in Ht. now subst v.
Qed.

(** X4.  Structural extraction leaves a match without action only when its
    [tabindex] attribute is present and empty: every other match of the
    taxonomy is classified [click] or [input]. *)
Theorem action_none_only_for_empty_tabindex
    (page : Page) (i : nat) (r : ExtractedElement) :
  nth_error (extractElements page) i = Some r ->
  (action r = click \/ action r = input \/ action r = none)
  /\ (action r = none ->
      exists e,
        nth_error (querySelectorAll INTERACTIVE_SELECTOR page) i = Some e
        /\ getAttribute "tabindex" e = Some EmptyString).
Proof.
  intros Hn. unfold extractElements, mapRawElements in Hn.
  rewrite nth_error_map, nth_error_mapi in Hn.
  destruct (nth_error (querySelectorAll INTERACTIVE_SELECTOR page) i) as [e|] eqn:He;
    [|discriminate].
  cbn [option_map] in Hn. injection Hn as <-. cbn [raw withSelector]. split.
  - pose proof (projectElement_action_not_submit i e).
    destruct (action (projectElement i e)); auto. contradiction.
  - intros Ha. exists e. split; [reflexivity|].
    apply nth_error_In in He. unfold querySelectorAll in He.
    apply filter_In in He. destruct He as [_ Hm].
    exact (matched_action_none i e Hm Ha).
Qed.

Lemma action_none_only_for_empty_tabindex_witness :
  map (fun r : ExtractedElement => action r)
      (extractElements page_button_with_tabindex) = [click; none]
  /\ exists e,
       nth_error (querySelectorAll INTERACTIVE_SELECTOR page_button_with_tabindex) 1
       = Some e
       /\ getAttribute "tabindex" e = Some EmptyString.
Proof.
  split; [reflexivity|].
  apply (proj2 (action_none_only_for_empty_tabindex page_button_with_tabindex 1
                  (withSelector
                     (projectElement 1 (node "DIV" [("tabindex", EmptyString)] "Card"
                                             (box 10 50 (606 # 10) 24))))
                  eq_refl)).
  reflexivity.
Defined.

(** X5.  Within one pass of the structural extraction, two different
    records whose elements have no id get different synthetic ids. *)
Theorem synthetic_ids_distinct
    (page : Page) (i j : nat) (ri rj : ExtractedElement) :
  nth_error (extractElements page) i = Some ri ->
  nth_error (extractElements page) j = Some rj ->
  i <> j ->
  JS.prop "id" (attributes ri) = Some EmptyString ->
  JS.prop "id" (attributes rj) = Some EmptyString ->
  id ri = ("el-" ++ JS.nat_to_string i)%string
  /\ id rj = ("el-" ++ JS.nat_to_string j)%string
  /\ id ri <> id rj.
Proof.
  intros Hi Hj Hne Hai Haj.
  unfold extractElements, mapRawElements in Hi, Hj.
  rewrite nth_error_map, nth_error_mapi in Hi, Hj.
  destruct (nth_error (querySelectorAll INTERACTIVE_SELECTOR page) i) as [ei|];
    [|discriminate].
  destruct (nth_error (querySelectorAll INTERACTIVE_SELECTOR page) j) as [ej|];
    [|discriminate].
  cbn [option_map] in Hi, Hj. injection Hi as <-. injection Hj as <-.
  cbn [raw withSelector projectElement attributes id JS.prop] in *.
  change (String.eqb "id" "id") with true in Hai, Haj. cbn iota in Hai, Haj.
  injection Hai as Hai. injection Haj as Haj.
  rewrite (or_else_of_empty _ _ Hai), (or_else_of_empty _ _ Haj).
  split; [reflexivity|]. split; [reflexivity|].
  intros H. injection H as H. apply Hne. now apply nat_to_string_inj.
Qed.

Lemma synthetic_ids_distinct_witness :
  map (fun r : ExtractedElement => id r)
      (extractElements page_link_then_button)
  = ["el-0"%string; "el-1"%string]
  /\ ("el-0" <> "el-1")%string.
Proof.
  split; [reflexivity|].
  pose proof (synthetic_ids_distinct page_link_then_button 0 1
                (withSelector (projectElement 0 (node "A" [("href", "/next")] "Next"
                                                      (box 10 10 60 24))))
                (withSelector (projectElement 1 (node "BUTTON" [] "Send"
                                                      (box 10 50 60 24))))
                eq_refl eq_refl) as H.
  destruct H as (_ & _ & H); [lia|reflexivity|reflexivity|].
  exact H.
Defined.

Lemma nth_error_numbered_from (els : list Element) :
  forall acc k r,
    nth_error (numbered_from acc els) k = Some r ->
    nth_error acc k = Some r
    \/ exists elements e,
         In e els /\ r = PerSelector.extracted elements e
         /\ List.length elements = k.
Proof.
  unfold numbered_from.
  induction els as [|e els IH]; intros acc k r H; [now left|].
  cbn [fold_left] in H. apply IH in H.
  destruct H as [H|(acc' & e' & Hin & -> & Hl)].
  - unfold push in H.
    destruct (Nat.lt_ge_cases k (List.length acc)) as [Hlt|Hge].
    + left. now rewrite nth_error_app1 in H.
    + rewrite nth_error_app2 in H by assumption.
      destruct (k - List.length acc) as [|d] eqn:Hd.
      * right. exists acc, e. cbn in H. injection H as <-.
        split; [now left|]. split; [reflexivity|lia].
      * cbn in H. destruct d; discriminate.
  - right. exists acc', e'. split; [now right|]. split; [reflexivity|assumption].
Qed.

(** X6.  In the per-selector extraction the record at position [k] of the
    output was built from a reported element when exactly [k] records had
    been pushed, so it is named after the id of that element when that is
    not empty, and [el-k] otherwise: the counter skips the matches that were
    not reported. *)
Theorem perSelector_ids_count_reported
    (page : Page) (k : nat) (r : ExtractedElement) :
  nth_error (PerSelector.extractElements page) k = Some r ->
  exists elements e,
    In e (document page) /\ reportable e = true
    /\ List.length elements = k
    /\ r = PerSelector.extracted elements e
    /\ id r = JS.or_else (getAttribute "id" e) ("el-" ++ JS.nat_to_string k)%string.
Proof.
  rewrite perSelector_closed_form. intros H.
  apply nth_error_numbered_from in H.
  destruct H as [H|(acc & e & He & -> & Hl)]; [destruct k; discriminate|].
  apply filter_In in He. destruct He as [Hc Hr].
  apply in_by_category in Hc. destruct Hc as [Hd _].
  exists acc, e. split; [exact Hd|]. split; [exact Hr|].
  split; [exact Hl|]. split; [reflexivity|].
  unfold PerSelector.extracted. cbn [raw id]. now rewrite Hl.
Qed.

Lemma perSelector_ids_count_reported_witness :
  let r := PerSelector.extracted
             [PerSelector.extracted [] (node "BUTTON" [] "Send" (box 10 50 60 24))]
             (node "A" [("href", "/next")] "Next" (box 10 10 60 24)) in
  id r = "el-1"%string
  /\ exists elements e,
       In e (document page_link_then_button) /\ reportable e = true
       /\ List.length elements = 1
       /\ r = PerSelector.extracted elements e
       /\ id r = JS.or_else (getAttribute "id" e) "el-1".
Proof.
  intros r. split; [reflexivity|].
  apply (perSelector_ids_count_reported page_link_then_button 1 r).
  reflexivity.
Defined.

Lemma trimStart_no_space (s : string) :
  starts_with_space (JS.trimStart s) = false.
Proof.
  induction s as [|c s IH]; [reflexivity|].
  cbn [JS.trimStart]. destruct (JS.isWhiteSpace c) eqn:Hc; [exact IH|].
  simpl. exact Hc.
Qed.

Lemma trimEnd_no_leading_space (s : string) :
  starts_with_space s = false -> starts_with_space (JS.trimEnd s) = false.
Proof.
  destruct s as [|c s]; [reflexivity|].
  cbn [starts_with_space JS.trimEnd]. intros Hc. now rewrite Hc.
Qed.

Lemma trim_no_leading_space (s : string) :
  starts_with_space (JS.trim s) = false.
Proof. apply trimEnd_no_leading_space, trimStart_no_space. Qed.

Lemma substring0_no_leading_space (n : nat) (s : string) :
  starts_with_space s = false -> starts_with_space (JS.substring0 n s) = false.
Proof.
  intros H. destruct (starts_with_space (JS.substring0 n s)) eqn:E; [|reflexivity].
  apply starts_with_space_substring0 in E. congruence.
Qed.

(** X7.  The text of a record of the structural extraction, in either form,
    has at most 100 characters and does not start with white space. *)
Theorem structural_text_bounded (page : Page) (r : ExtractedElement) (t : string) :
  In r (extractElements page) \/ In r (PerSelector.extractElements page) ->
  text r = Some t ->
  String.length t <= 100 /\ starts_with_space t = false.
Proof.
  assert (Hgen : forall e,
             option_map (fun t => JS.substring0 100 (JS.trim t)) (textContent e)
             = Some t ->
             String.length t <= 100 /\ starts_with_space t = false).
  { intros e H. destruct (textContent e) as [tc|]; [|discriminate].
    cbn [option_map] in H.
    assert (E : JS.substring0 100 (JS.trim tc) = t) by congruence.
    rewrite <- E. split; [apply length_substring0|].
    apply substring0_no_leading_space, trim_no_leading_space. }
  intros [H|H] Ht.
  - apply in_extractElements in H. destruct H as (i & e & _ & ->).
    exact (Hgen e Ht).
  - apply in_perSelector in H. destruct H as (acc & e & _ & _ & _ & ->).
    exact (Hgen e Ht).
Qed.

Lemma structural_text_bounded_witness :
  text (withSelector
          (projectElement 0 (node "BUTTON" [("tabindex", "0")] "  Save   all  "
                                  (box 10 10 60 24))))
  = Some "Save   all"%string
  /\ String.length "Save   all" <= 100.
Proof.
  split; [reflexivity|].
  apply (structural_text_bounded page_button_with_tabindex
           (withSelector
              (projectElement 0 (node "BUTTON" [("tabindex", "0")] "  Save   all  "
                                      (box 10 10 60 24))))
           "Save   all").
  - left. left. reflexivity.
  - reflexivity.
Defined.

Lemma round_above_8 (q : Q) : (8 < q)%Q -> (8 <= JS.round q)%Z.
Proof.
  intros H. unfold JS.round.
  change 8%Z with (Qfloor (inject_Z 8)) at 1.
  apply Qfloor_resp_le. unfold inject_Z. lra.
Qed.

(** X8.  Every record of the visual scanner carries a bounding box whose
    origin is clamped to non-negative coordinates and whose width and height
    are at least 8. *)
Theorem scanner_boxes_clamped (page : Page) (b : ExtractedElement) :
  In b (extractVisibleElementsWithBoxes page) ->
  exists bb,
    bbox b = Some bb
    /\ (0 <= x bb)%Z /\ (0 <= y bb)%Z /\ (8 <= width bb)%Z /\ (8 <= height bb)%Z.
Proof.
  intros Hin. apply in_scanner in Hin.
  destruct Hin as (_ & i & e & t & _ & Hc & _).
  change (bbox b) with (bbox (raw b)).
  pose proof (collectOne_visible _ _ _ _ _ _ _ Hc) as Hv.
  apply visibleInViewport_spec in Hv. destruct Hv as (Hw & Hh & _).
  unfold collectOne in Hc.
  destruct (negb (visibleInViewport (innerWidth page) (innerHeight page)
                                    (boundingClientRect e))); [discriminate|].
  destruct (t && (String.length (boxedText e) <? 2)); [discriminate|].
  assert (E : bbox (raw b)
              = Some {| x := Z.max 0 (JS.round (rect_left (boundingClientRect e)));
                        y := Z.max 0 (JS.round (rect_top (boundingClientRect e)));
                        width := JS.round (rect_width (boundingClientRect e));
                        height := JS.round (rect_height (boundingClientRect e)) |}).
  { injection Hc as <-. reflexivity. }
  rewrite E. eexists. split; [reflexivity|]. cbn [x y width height].
  repeat split; try apply Z.le_max_l; now apply round_above_8.
Qed.

Lemma scanner_boxes_clamped_witness :
  let page := desktop [node "BUTTON" [] "Back"
                            (box (-20) (-3) (179 # 2) (17 # 2))] in
  map (fun b : ExtractedElement => bbox b) (extractVisibleElementsWithBoxes page)
  = [Some (mkBBox 0 0 90 9)]
  /\ exists bb,
       bbox (hd (withSelector (projectElement 0 (node "x" [] "x" (box 0 0 0 0))))
                (extractVisibleElementsWithBoxes page)) = Some bb
       /\ (0 <= x bb)%Z /\ (0 <= y bb)%Z /\ (8 <= width bb)%Z /\ (8 <= height bb)%Z.
Proof.
  intros page. split; [reflexivity|].
  apply (scanner_boxes_clamped page). left. reflexivity.
Defined.



Lemma truthy_or_undefined (v : option string) :
  JS.truthy (JS.or_undefined v) = JS.truthy v.
Proof. unfold JS.or_undefined. destruct (JS.truthy v) eqn:E; [exact E|reflexivity]. Qed.

Lemma or_empty_or_undefined (v : option string) :
  JS.or_empty (JS.or_undefined v) = JS.or_empty v.
Proof.
  unfold JS.or_undefined, JS.truthy, JS.or_empty, JS.or_else.
  destruct v as [s|]; [|reflexivity].
  destruct (String.eqb s EmptyString) eqn:E; simpl; [reflexivity|now rewrite E].
Qed.

(** X10.  The two forms of the structural extraction give an element the
    same selector, tag, type, action and text, whatever the position.  Their
    records differ in three ways: the older form keeps an empty [name],
    [placeholder] or [href] where the current one drops it; its attributes
    are those of the current form without the [id] key; and it numbers a
    synthetic id by the count of records pushed so far, where the current
    form uses the index of the match, so the ids agree when the two numbers
    do. *)
Theorem both_forms_describe_alike
    (elements : list ExtractedElement) (i : nat) (e : Element) :
  selector (PerSelector.extracted elements e)
  = selector (withSelector (projectElement i e))
  /\ tag (PerSelector.extracted elements e) = tag (projectElement i e)
  /\ type (PerSelector.extracted elements e) = type (projectElement i e)
  /\ action (PerSelector.extracted elements e) = action (projectElement i e)
  /\ text (PerSelector.extracted elements e) = text (projectElement i e)
  /\ JS.or_undefined (name (PerSelector.extracted elements e))
     = name (projectElement i e)
  /\ JS.or_undefined (placeholder (PerSelector.extracted elements e))
     = placeholder (projectElement i e)
  /\ JS.or_undefined (href (PerSelector.extracted elements e))
     = href (projectElement i e)
  /\ attributes (projectElement i e)
     = ("id"%string, JS.or_empty (getAttribute "id" e))
         :: attributes (PerSelector.extracted elements e)
  /\ JS.prop "id" (attributes (PerSelector.extracted elements e)) = None
  /\ id (PerSelector.extracted elements e)
     = JS.or_else (getAttribute "id" e)
                  ("el-" ++ JS.nat_to_string (List.length elements))%string
  /\ id (projectElement i e)
     = JS.or_else (getAttribute "id" e) ("el-" ++ JS.nat_to_string i)%string.
Proof.
  split; [|repeat split].
  unfold PerSelector.extracted, withSelector, projectElement.
  cbn [selector raw attributes name tag JS.prop].
  change (String.eqb "id" "dataTestid") with false.
  change (String.eqb "id" "ariaLabel") with false.
  change (String.eqb "className" "dataTestid") with false.
  change (String.eqb "className" "ariaLabel") with false.
  change (String.eqb "className" "id") with false.
  change (String.eqb "dataTestid" "ariaLabel") with false.
  change (String.eqb "id" "id") with true.
  change (String.eqb "dataTestid" "dataTestid") with true.
  change (String.eqb "ariaLabel" "ariaLabel") with true.
  cbn iota. rewrite !or_undefined_or_empty.
  unfold generateSelector.
  cbn [sa_id sa_dataTestid sa_ariaLabel sa_name sa_tag].
  now rewrite !truthy_or_undefined, !or_empty_or_undefined.
Qed.

(* ===================================================================== *)
(** ** The request handlers *)
(* ===================================================================== *)

Lemma trimEnd_idempotent (s : string) : JS.trimEnd (JS.trimEnd s) = JS.trimEnd s.
Proof.
  induction s as [|c s IH]; [reflexivity|].
  cbn [JS.trimEnd].
  destruct (JS.isWhiteSpace c && String.eqb (JS.trimEnd s) EmptyString) eqn:E;
    [reflexivity|].
  cbn [JS.trimEnd]. now rewrite IH, E.
Qed.

Lemma trimStart_fixed (s : string) :
  starts_with_space s = false -> JS.trimStart s = s.
Proof.
  destruct s as [|c s]; [reflexivity|].
  cbn [starts_with_space JS.trimStart]. now intros ->.
Qed.

Lemma trim_idempotent (s : string) : JS.trim (JS.trim s) = JS.trim s.
Proof.
  unfold JS.trim at 1.
  rewrite (trimStart_fixed _ (trim_no_leading_space s)).
  unfold JS.trim. apply trimEnd_idempotent.
Qed.

Lemma trimEnd_cons (c : ascii) (s : string) :
  JS.isWhiteSpace c = false -> JS.trimEnd (String c s) = String c (JS.trimEnd s).
Proof. intros H. cbn [JS.trimEnd]. now rewrite H. Qed.

Lemma trim_with_scheme (s : string) :
  JS.trim ("https://" ++ JS.trim s) = ("https://" ++ JS.trim s)%string.
Proof.
  unfold JS.trim at 1. cbn [append].
  rewrite trimStart_fixed by reflexivity.
  rewrite !trimEnd_cons by reflexivity.
  unfold JS.trim. now rewrite trimEnd_idempotent.
Qed.

(** X11.  [normalizeUrl] always yields a URL with an http or https scheme,
    and normalising twice is normalising once: an input with a scheme passes
    through, trimmed, and any other is trimmed and prefixed with
    [https://]. *)
Theorem normalizeUrl_scheme_and_idempotent (input : string) :
  has_scheme (normalizeUrl input) = true
  /\ normalizeUrl (normalizeUrl input) = normalizeUrl input
  /\ (has_scheme (JS.trim input) = true -> normalizeUrl input = JS.trim input)
  /\ (has_scheme (JS.trim input) = false ->
      normalizeUrl input = ("https://" ++ JS.trim input)%string).
Proof.
  unfold normalizeUrl.
  destruct (has_scheme (JS.trim input)) eqn:E; cbn [negb].
  - split; [exact E|]. split; [|split; [reflexivity|discriminate]].
    now rewrite trim_idempotent, E.
  - assert (Hs : has_scheme ("https://" ++ JS.trim input) = true) by reflexivity.
    split; [exact Hs|]. split; [|split; [discriminate|reflexivity]].
    now rewrite trim_with_scheme, Hs.
Qed.

Lemma normalizeUrl_scheme_and_idempotent_witness :
  normalizeUrl "  example.com/a b " = "https://example.com/a b"%string
  /\ normalizeUrl " HTTP://example.com" = "HTTP://example.com"%string.
Proof.
  split.
  - apply (proj2 (proj2 (proj2
             (normalizeUrl_scheme_and_idempotent "  example.com/a b ")))).
    reflexivity.
  - apply (proj1 (proj2 (proj2
             (normalizeUrl_scheme_and_idempotent " HTTP://example.com")))).
    reflexivity.
Defined.

(** X12.  The navigation timeout the handlers use always lies between 3000
    and 120000 ms: a finite request is clamped into that range, unchanged
    when it is inside, and anything that is not a finite number gives
    30000. *)
Theorem effectiveTimeout_clamped (parsedTimeout : JSNumber) :
  (3000 <= effectiveTimeout parsedTimeout <= 120000)%Q
  /\ (forall q, parsedTimeout = Num q -> (3000 <= q <= 120000)%Q ->
                (effectiveTimeout parsedTimeout == q)%Q)
  /\ (forall q, parsedTimeout = Num q -> (q < 3000)%Q ->
                (effectiveTimeout parsedTimeout == 3000)%Q)
  /\ (forall q, parsedTimeout = Num q -> (120000 < q)%Q ->
                (effectiveTimeout parsedTimeout == 120000)%Q)
  /\ ((forall q, parsedTimeout <> Num q) ->
      effectiveTimeout parsedTimeout = 30000%Q).
Proof.
  destruct parsedTimeout as [q| | |]; cbn [effectiveTimeout];
    try (split; [split; discriminate|];
         repeat (split; [intros q0 H0; discriminate H0|]);
         intros _; reflexivity).
  assert (H : (3000 <= Qmin (Qmax q 3000) 120000 <= 120000
               /\ (3000 <= q <= 120000 -> Qmin (Qmax q 3000) 120000 == q)
               /\ (q < 3000 -> Qmin (Qmax q 3000) 120000 == 3000)
               /\ (120000 < q -> Qmin (Qmax q 3000) 120000 == 120000))%Q).
  { destruct (Q.max_spec q 3000) as [[? ?]|[? ?]];
      destruct (Q.min_spec (Qmax q 3000) 120000) as [[? ?]|[? ?]];
      repeat split; intros; lra. }
  destruct H as (H1 & H2 & H3 & H4).
  split; [exact H1|].
  split; [intros q0 E; injection E as <-; exact H2|].
  split; [intros q0 E; injection E as <-; exact H3|].
  split; [intros q0 E; injection E as <-; exact H4|].
  intros Hn. now contradiction (Hn q).
Qed.

Lemma effectiveTimeout_clamped_witness :
  (effectiveTimeout (Num 500) == 3000)%Q
  /\ (effectiveTimeout (Num 45000) == 45000)%Q
  /\ effectiveTimeout NaN = 30000%Q.
Proof.
  split; [|split].
  - apply (proj1 (proj2 (proj2 (effectiveTimeout_clamped (Num 500%Q))))
             500%Q eq_refl).
    reflexivity.
  - apply (proj1 (proj2 (effectiveTimeout_clamped (Num 45000%Q))) 45000%Q eq_refl).
    split; discriminate.
  - apply (proj2 (proj2 (proj2 (proj2 (effectiveTimeout_clamped NaN))))).
    intros q. discriminate.
Defined.

(** X13.  Whatever the scan, the answer of [/scan-screenshot] is coherent:
    its count is the length of the list it returns, it is HTTP 200 exactly
    when [ok], every other answer is HTTP 422, the screenshot is left out
    exactly in the blocked answer, and a block signal wins over an empty
    result. *)
Theorem scanResponse_coherent (targetUrl : string) (scan : Scan) :
  res_count (scanResponse targetUrl scan)
  = List.length (res_elements (scanResponse targetUrl scan))
  /\ (ok (scanResponse targetUrl scan) = true
      <-> http (scanResponse targetUrl scan) = 200%Z)
  /\ (ok (scanResponse targetUrl scan) = false
      <-> http (scanResponse targetUrl scan) = 422%Z)
  /\ (ok (scanResponse targetUrl scan) = true
      <-> blockedByStatus scan = false /\ blockedByTitle scan = false
          /\ scan_elements scan <> [])
  /\ (res_screenshot (scanResponse targetUrl scan) = None
      <-> blocked (scanResponse targetUrl scan) = Some true)
  /\ (blockedByStatus scan = true \/ blockedByTitle scan = true ->
      blocked (scanResponse targetUrl scan) = Some true)
  /\ res_status (scanResponse targetUrl scan) = scan_status scan
  /\ res_finalUrl (scanResponse targetUrl scan) = scan_finalUrl scan.
Proof.
  unfold scanResponse.
  destruct (blockedByStatus scan), (blockedByTitle scan),
    (scan_elements scan) as [|b l]; cbn;
    repeat split; intros; try discriminate; try tauto;
    try match goal with
        | H : _ /\ _ |- _ => destruct H as (? & ? & ?); try discriminate;
                             try contradiction
        | H : _ \/ _ |- _ => destruct H; discriminate
        end; auto.
Qed.

Lemma scanResponse_coherent_witness :
  blocked (scanResponse "u" (mkScan (Some 429%Z) "u" (Some "Shop") [] "png" 30000 None))
  = Some true.
Proof.
  apply (proj1 (proj2 (proj2 (proj2 (proj2 (proj2
           (scanResponse_coherent "u"
              (mkScan (Some 429%Z) "u" (Some "Shop") [] "png" 30000 None)))))))).
  left. reflexivity.
Defined.

Lemma filter_nil_iff {A} (f : A -> bool) (l : list A) :
  filter f l = [] <-> forall a, In a l -> f a = false.
Proof.
  induction l as [|a l IH]; simpl.
  - split; [intros _ x []|reflexivity].
  - destruct (f a) eqn:E.
    + split; [discriminate|]. intros H. specialize (H a (or_introl eq_refl)).
      congruence.
    + rewrite IH. split.
      * intros H x [<-|Hx]; auto.
      * intros H x Hx. apply H. now right.
Qed.

Lemma length_extractElements (page : Page) :
  List.length (extractElements page)
  = List.length (querySelectorAll INTERACTIVE_SELECTOR page).
Proof.
  unfold extractElements, mapRawElements, JS.mapi.
  now rewrite length_map, length_mapi_from.
Qed.

(** X14.  [/elements] answers 422 exactly when no element of the page
    matches the interactive taxonomy, and 200 otherwise, with one record for
    each match; visibility plays no part. *)
Theorem elements_endpoint_422_iff_no_match
    (targetUrl : string) (page : Page) (status : option Z)
    (finalUrl : string) (timeoutMs : Z) :
  let response :=
    elementsResponse targetUrl
      (mkExtraction (extractElements page) status finalUrl timeoutMs) in
  (http response = 422%Z
   <-> forall e, In e (document page) -> matches INTERACTIVE_SELECTOR e = false)
  /\ (http response = 200%Z
      <-> exists e, In e (document page) /\ matches INTERACTIVE_SELECTOR e = true)
  /\ ok response = Z.eqb (http response) 200
  /\ res_count response
     = List.length (filter (matches INTERACTIVE_SELECTOR) (document page))
  /\ List.length (res_elements response) = res_count response.
Proof.
  cbv zeta. unfold elementsResponse. cbn [ext_elements ext_status ext_finalUrl
                                         ext_timeoutMs].
  rewrite length_extractElements. unfold querySelectorAll.
  destruct (filter (matches INTERACTIVE_SELECTOR) (document page)) as [|m l] eqn:E;
    cbn [List.length Nat.eqb http ok res_count res_elements].
  - pose proof (proj1 (filter_nil_iff _ _) E) as E'.
    split; [split; auto|]. split; [|repeat split].
    split; [discriminate|]. intros (e & He & Hm). rewrite (E' e He) in Hm.
    discriminate.
  - assert (Hm : In m (filter (matches INTERACTIVE_SELECTOR) (document page)))
      by (rewrite E; now left).
    apply filter_In in Hm.
    split; [split; [discriminate|]|].
    { intros H. destruct Hm as [Hd Hm]. rewrite (H m Hd) in Hm. discriminate. }
    split; [split; [intros _; exists m; exact Hm|reflexivity]|].
    split; [reflexivity|]. split; [reflexivity|].
    rewrite length_extractElements. unfold querySelectorAll. now rewrite E.
Qed.

Lemma elements_endpoint_422_iff_no_match_witness :
  http (elementsResponse "u"
          (mkExtraction (extractElements page_paragraph) (Some 200%Z) "u" 30000))
  = 422%Z
  /\ http (elementsResponse "u"
             (mkExtraction (extractElements page_unrendered_button) (Some 200%Z)
                           "u" 30000))
     = 200%Z.
Proof.
  split.
  - apply (proj1 (elements_endpoint_422_iff_no_match "u" page_paragraph
                    (Some 200%Z) "u" 30000)).
    intros e [<-|[]]. reflexivity.
  - apply (proj1 (proj2 (elements_endpoint_422_iff_no_match "u"
                           page_unrendered_button (Some 200%Z) "u" 30000))).
    exists (node "BUTTON" [] "Menu" (box 0 0 0 0)).
    split; [left; reflexivity|reflexivity].
Defined.

(* ===================================================================== *)
(** ** Further properties of the pool and of the session manager *)
(* ===================================================================== *)

(** X15.  From a cursor inside the table the pool never yields
    [undefined]: it returns an entry of its table, leaves the cursor inside
    the table, and each of the two rotations leaves the other cursor
    alone. *)
Theorem pool_yields_table_entries (w : World) :
  (uaIndex w < List.length USER_AGENTS ->
   exists ua, fst (getNextUserAgent w) = Returned (Some ua) /\ In ua USER_AGENTS)
  /\ uaIndex (snd (getNextUserAgent w)) < List.length USER_AGENTS
  /\ viewportIndex (snd (getNextUserAgent w)) = viewportIndex w
  /\ (viewportIndex w < List.length VIEWPORTS ->
      exists vp, fst (getNextViewport w) = Returned (Some vp) /\ In vp VIEWPORTS)
  /\ viewportIndex (snd (getNextViewport w)) < List.length VIEWPORTS
  /\ uaIndex (snd (getNextViewport w)) = uaIndex w.
Proof.
  unfold getNextUserAgent, getNextViewport, bind, gets, modify, ret.
  cbn [fst snd uaIndex viewportIndex set_uaIndex set_viewportIndex].
  split; [|split; [|split; [|split; [|split]]]].
  - intros H. destruct (nth_error USER_AGENTS (uaIndex w)) as [ua|] eqn:E.
    + exists ua. split; [reflexivity|]. now apply nth_error_In in E.
    + apply nth_error_None in E. lia.
  - apply Nat.mod_upper_bound. discriminate.
  - reflexivity.
  - intros H. destruct (nth_error VIEWPORTS (viewportIndex w)) as [vp|] eqn:E.
    + exists vp. split; [reflexivity|]. now apply nth_error_In in E.
    + apply nth_error_None in E. lia.
  - apply Nat.mod_upper_bound. discriminate.
  - reflexivity.
Qed.

Lemma pool_yields_table_entries_witness :
  exists ua,
    fst (getNextUserAgent (set_uaIndex 3 initial_world)) = Returned (Some ua)
    /\ In ua USER_AGENTS.
Proof.
  apply (proj1 (pool_yields_table_entries (set_uaIndex 3 initial_world))).
  simpl. lia.
Defined.

Lemma launches_app (t u : list Call) :
  launches (t ++ u) = launches t + launches u.
Proof.
  induction t as [|[] t IH]; simpl; auto.
Qed.



(** X17.  When the launch fails, [withPage] throws the launch error without
    calling the work function or creating a context; no handle is installed
    and no rotation step is consumed, so the next request launches again. *)
Theorem withPage_launch_failure
    (engine : Engine) (T : Type) (fn : Handle -> M T) (w : World) (err : string) :
  browser w = None ->
  rejects engine (Launch (JS.or_undefined (proxy (options w)))) (trace w)
  = Some err ->
  withPage engine fn w
  = (Thrown err,
     set_trace (trace w ++ [Launch (JS.or_undefined (proxy (options w)))]) w).
Proof.
  intros Hb Hr. unfold_session. rewrite Hb.
  cbn [fst snd trace browser options]. now rewrite Hr.
Qed.

Lemma withPage_launch_failure_witness :
  withPage engine_without_browser work_returns initial_world
  = (Thrown "Executable not found", set_trace [Launch None] initial_world).
Proof.
  apply (withPage_launch_failure engine_without_browser nat work_returns
           initial_world "Executable not found"); reflexivity.
Defined.

Lemma bind_Returned {A B} (m : M A) (k : A -> M B) (w w' : World) (x : B) :
  bind m k w = (Returned x, w') ->
  exists a w0, m w = (Returned a, w0) /\ k a w0 = (Returned x, w').
Proof.
  unfold bind. destruct (m w) as [[a|e] w0]; [|discriminate].
  intros H. exists a, w0. split; [reflexivity|exact H].
Qed.

Lemma perform_Returned engine (c : Call) (w w' : World) (h : Handle) :
  perform engine c w = (Returned h, w') ->
  h = List.length (trace w) /\ w' = set_trace (trace w ++ [c]) w.
Proof.
  unfold perform. destruct (rejects engine c (trace w)); [discriminate|].
  intros H. injection H as <- <-. split; reflexivity.
Qed.

Lemma getBrowser_Returned engine (w w0 : World) (b : Handle) :
  getBrowser engine w = (Returned b, w0) ->
  b = match browser w with Some b0 => b0 | None => List.length (trace w) end
  /\ w0 = match browser w with
          | Some _ => w
          | None =>
              set_browser (Some (List.length (trace w)))
                (set_trace
                   (trace w ++ [Launch (JS.or_undefined (proxy (options w)))]) w)
          end.
Proof.
  unfold getBrowser, perform, bind, gets, modify, ret.
  destruct (browser w) as [b0|].
  - intros H. injection H as <- <-. split; reflexivity.
  - cbn [options trace].
    destruct (rejects engine (Launch (JS.or_undefined (proxy (options w)))) (trace w));
      [discriminate|].
    intros H. injection H as <- <-. split; reflexivity.
Qed.

(** The successful path of [withPage] up to its [try], in closed form. *)
Lemma openSession_success engine (w w1 : World) (c p : Handle) :
  openSession engine w = (Returned (c, p), w1) ->
  let rotates :=
    negb (JS.truthy (userAgent (options w)))
    && match rotateUA (options w) with Some r => r | None => false end in
  let ua := if rotates then nth_error USER_AGENTS (uaIndex w)
            else userAgent (options w) in
  let vp := match viewport (options w) with
            | Some v => Some v
            | None => nth_error VIEWPORTS (viewportIndex w)
            end in
  let b := match browser w with Some b0 => b0 | None => List.length (trace w) end in
  let launch := match browser w with
                | Some _ => []
                | None => [Launch (JS.or_undefined (proxy (options w)))]
                end in
  trace w1 = trace w ++ launch
             ++ [NewContext b ua vp; AddInitScript c; NewPage c;
                 SetDefaultTimeout p 30000]
  /\ c = List.length (trace w ++ launch) /\ p = c + 2
  /\ browser w1 = Some b
  /\ options w1 = options w
  /\ pending w1 = pending w
  /\ uaIndex w1 = (if rotates then (uaIndex w + 1) mod List.length USER_AGENTS
                   else uaIndex w)
  /\ viewportIndex w1
     = match viewport (options w) with
       | Some _ => viewportIndex w
       | None => (viewportIndex w + 1) mod List.length VIEWPORTS
       end.
Proof.
  intros H. unfold openSession in H.
  apply bind_Returned in H. destruct H as (b' & w0 & Hb & H).
  apply getBrowser_Returned in Hb. destruct Hb as [-> Hw0].
  apply bind_Returned in H. destruct H as (o & w0' & Ho & H).
  unfold gets in Ho. injection Ho as <- <-.
  apply bind_Returned in H. destruct H as (ua' & w2 & Hua & H).
  apply bind_Returned in H. destruct H as (vp' & w3 & Hvp & H).
  apply bind_Returned in H. destruct H as (c' & w4 & Hc & H).
  apply perform_Returned in Hc. destruct Hc as [-> ->].
  apply bind_Returned in H. destruct H as (x & w5 & Hi & H).
  apply perform_Returned in Hi. destruct Hi as [_ ->].
  apply bind_Returned in H. destruct H as (p' & w6 & Hp & H).
  apply perform_Returned in Hp. destruct Hp as [-> ->].
  apply bind_Returned in H. destruct H as ([] & w7 & Hn & H).
  unfold note, modify in Hn. injection Hn as <-.
  unfold ret in H. injection H as <- <- <-.
  assert (Ew0 : options w0 = options w /\ uaIndex w0 = uaIndex w
                /\ viewportIndex w0 = viewportIndex w /\ pending w0 = pending w
                /\ browser w0
                   = Some match browser w with
                          | Some b0 => b0
                          | None => List.length (trace w)
                          end
                /\ trace w0
                   = trace w ++ match browser w with
                                | Some _ => []
                                | None => [Launch (JS.or_undefined (proxy (options w)))]
                                end).
  { subst w0. destruct (browser w) eqn:Eb; cbn; rewrite ?app_nil_r; auto 10. }
  destruct Ew0 as (Eo & Eu & Ev & Ep & Eb & Et).
  rewrite Eo in Hua, Hvp.
  assert (E2 : ua' = (if negb (JS.truthy (userAgent (options w)))
                         && match rotateUA (options w) with
                            | Some r => r | None => false end
                      then nth_error USER_AGENTS (uaIndex w)
                      else userAgent (options w))
               /\ options w2 = options w /\ viewportIndex w2 = viewportIndex w
               /\ pending w2 = pending w /\ browser w2 = browser w0
               /\ trace w2 = trace w0
               /\ uaIndex w2
                  = (if negb (JS.truthy (userAgent (options w)))
                        && match rotateUA (options w) with
                           | Some r => r | None => false end
                     then (uaIndex w + 1) mod List.length USER_AGENTS
                     else uaIndex w)).
  { destruct (negb (JS.truthy (userAgent (options w)))
              && match rotateUA (options w) with Some r => r | None => false end).
    - rewrite getNextUserAgent_step in Hua. injection Hua as <- <-.
      cbn. rewrite Eu. auto 10.
    - unfold ret in Hua. injection Hua as <- <-. auto 10. }
  destruct E2 as (-> & Eo2 & Ev2 & Ep2 & Eb2 & Et2 & Eu2).
  assert (E3 : vp' = match viewport (options w) with
                     | Some v => Some v
                     | None => nth_error VIEWPORTS (viewportIndex w)
                     end
               /\ options w3 = options w /\ uaIndex w3 = uaIndex w2
               /\ pending w3 = pending w /\ browser w3 = browser w0
               /\ trace w3 = trace w0
               /\ viewportIndex w3
                  = match viewport (options w) with
                    | Some _ => viewportIndex w
                    | None => (viewportIndex w + 1) mod List.length VIEWPORTS
                    end).
  { destruct (viewport (options w)) as [v|].
    - unfold ret in Hvp. injection Hvp as <- <-. auto 10.
    - unfold getNextViewport, bind, gets, modify, ret in Hvp.
      injection Hvp as <- <-. cbn. rewrite Ev2. auto 10. }
  destruct E3 as (-> & Eo3 & Eu3 & Ep3 & Eb3 & Et3 & Ev3).
  cbv zeta. cbn [trace browser options pending uaIndex viewportIndex set_trace].
  rewrite Et3, Et, Eb3, Eb, Eo3, Ep3, Eu3, Eu2, Ev3, <- !app_assoc.
  cbn [app]. rewrite !length_app. cbn [List.length].
  repeat split; lia.
Qed.



(** X19.  A session that reaches its work has made, after at most one
    launch, exactly these calls in this order: one [newContext] on the
    browser, the init script on that context, one page on that context, the
    default timeout of 30000 ms on that page.  The init script is installed
    before the page exists, and the browser stays installed. *)
Theorem session_setup_order
    (engine : Engine) (w w1 : World) (c p : Handle) :
  openSession engine w = (Returned (c, p), w1) ->
  exists b ua vp,
    trace w1
    = trace w
      ++ match browser w with
         | Some _ => []
         | None => [Launch (JS.or_undefined (proxy (options w)))]
         end
      ++ [NewContext b ua vp; AddInitScript c; NewPage c;
          SetDefaultTimeout p 30000]
    /\ browser w1 = Some b
    /\ (forall b0, browser w = Some b0 -> b = b0)
    /\ nth_error (trace w1) c = Some (NewContext b ua vp)
    /\ nth_error (trace w1) p = Some (NewPage c)
    /\ options w1 = options w /\ pending w1 = pending w.
Proof.
  intros H. apply openSession_success in H. cbv zeta in H.
  destruct H as (Ht & Hc & Hp & Hb & Ho & Hpe & _ & _).
  eexists _, _, _. split; [exact Ht|]. split; [exact Hb|].
  split; [intros b0 E; now rewrite E|].
  split; [|split; [|split; assumption]].
  - rewrite Ht, app_assoc, nth_error_app2 by lia.
    rewrite Hc, Nat.sub_diag. reflexivity.
  - rewrite Ht, app_assoc, nth_error_app2 by lia.
    replace (p - List.length (trace w ++ _)) with 2 by lia. reflexivity.
Qed.

Lemma session_setup_order_witness :
  trace (snd (openSession reliable_engine initial_world))
  = [Launch None; NewContext 0 None (Some (mkViewport 1920 1080));
     AddInitScript 1; NewPage 1; SetDefaultTimeout 3 30000].
Proof.
  destruct (session_setup_order reliable_engine initial_world
              (snd (openSession reliable_engine initial_world)) 1 3 eq_refl)
    as (b & ua & vp & Ht & _).
  reflexivity.
Defined.

(** X20.  With [Math.random()] in [0, 1), the pause before the work lies
    between 500 and 1499 ms, and taking it changes nothing in the
    manager. *)
Theorem randomDelay_bounds (engine : Engine) (w : World) :
  (0 <= mathRandom engine (trace w))%Q ->
  (mathRandom engine (trace w) < 1)%Q ->
  exists d,
    randomDelay engine w = (Returned d, w) /\ (500 <= d <= 1499)%Z.
Proof.
  intros H0 H1. unfold randomDelay, bind, gets, ret. cbn [trace].
  eexists. split; [reflexivity|].
  assert (Hlo : (0 <= Qfloor (mathRandom engine (trace w) * 1000))%Z).
  { change 0%Z with (Qfloor (inject_Z 0)). apply Qfloor_resp_le.
    unfold inject_Z. lra. }
  assert (Hhi : (Qfloor (mathRandom engine (trace w) * 1000) < 1000)%Z).
  { rewrite Zlt_Qlt.
    apply Qle_lt_trans with (mathRandom engine (trace w) * 1000)%Q;
      [apply Qfloor_le|].
    unfold inject_Z. lra. }
  lia.
Qed.

Lemma randomDelay_bounds_witness :
  randomDelay reliable_engine initial_world = (Returned 1000%Z, initial_world).
Proof.
  destruct (randomDelay_bounds reliable_engine initial_world) as (d & Hd & _).
  - discriminate.
  - reflexivity.
  - reflexivity.
Defined.

(** X21.  An awaited [close] is idempotent and clears the handle only when
    the engine confirms: after it has returned, no handle is installed and
    closing again makes no call; if the engine rejects the close, [close]
    throws and the handle stays installed. *)
Theorem close_outcomes (engine : Engine) (w : World) :
  (fst (close engine w) = Returned tt ->
   browser (snd (close engine w)) = None
   /\ close engine (snd (close engine w)) = (Returned tt, snd (close engine w)))
  /\ (forall err, fst (close engine w) = Thrown err ->
        browser (snd (close engine w)) = browser w /\ browser w <> None)
  /\ (browser w = None -> close engine w = (Returned tt, w))
  /\ options (snd (close engine w)) = options w.
Proof.
  unfold close, perform, bind, gets, modify, ret.
  destruct w as [ua vp [b|] o t pe]; cbn.
  - destruct (rejects engine (BrowserClose b) t) as [e|]; cbn.
    + split; [discriminate|]. split; [|split; [discriminate|reflexivity]].
      intros err _. split; [reflexivity|discriminate].
    + split; [intros _; split; reflexivity|].
      split; [discriminate|]. split; [discriminate|reflexivity].
  - split; [intros _; split; reflexivity|].
    split; [discriminate|]. split; reflexivity.
Qed.

Lemma close_outcomes_witness :
  browser (snd (close reliable_engine world_with_browser)) = None
  /\ browser (snd (close engine_without_close world_with_browser)) = Some 0.
Proof.
  split.
  - apply (proj1 (close_outcomes reliable_engine world_with_browser)).
    reflexivity.
  - apply (proj1 (proj2 (close_outcomes engine_without_close world_with_browser))
             "Browser has crashed").
    reflexivity.
Defined.

(** One session on an installed browser launches nothing, leaves the
    browser installed and starts no close. *)
Lemma withPage_reuses_browser engine (T : Type) (fn : Handle -> M T)
                              (w : World) (b : Handle) :
  browser w = Some b ->
  keeps_browser fn ->
  browser (snd (withPage engine fn w)) = Some b
  /\ launches (trace (snd (withPage engine fn w))) = launches (trace w)
  /\ pending (snd (withPage engine fn w)) = pending w.
Proof.
  intros Hb Hkeep.
  set (P := fun w' => browser w' = Some b
                      /\ launches (trace w') = launches (trace w)
                      /\ pending w' = pending w).
  change (P (snd (withPage engine fn w))).
  unfold_session. rewrite Hb.
  cbn [fst snd trace browser options uaIndex viewportIndex pending
       set_trace set_browser set_options set_uaIndex set_viewportIndex
       set_pending];
    repeat (branch;
            cbn [fst snd trace browser options uaIndex viewportIndex pending
                 set_trace set_browser set_options set_uaIndex set_viewportIndex
                 set_pending] in *; try discriminate);
    subst P;
    repeat match goal with
           | H : fn ?p ?w0 = (_, _) |- _ =>
               let Hq := fresh "Hq" in
               pose proof (Hkeep p w0) as Hq; rewrite H in Hq;
               cbn [fst snd trace browser options uaIndex viewportIndex pending
                    set_trace set_browser set_options set_uaIndex
                    set_viewportIndex set_pending] in Hq;
               destruct Hq as (? & ? & ?); clear H
           end;
    cbn [fst snd trace browser options uaIndex viewportIndex pending
         set_trace set_browser set_options set_uaIndex set_viewportIndex
         set_pending];
    rewrite ?launches_app in *; cbn [launches] in *;
    (split; [congruence|split; [lia|congruence]]).
Qed.

(** X22.  Sessions reuse the browser: once a handle is installed and no
    close of it is pending, any number of sessions in a row, whether they
    succeed or fail, launch no further browser, leave that handle installed
    and start no close, as long as the work functions leave the browser of
    the manager alone (in particular, do not reconfigure it). *)
Theorem sessions_reuse_browser
    (engine : Engine) (T : Type) (works : list (Handle -> M T))
    (w : World) (b : Handle) :
  browser w = Some b ->
  pending w = [] ->
  Forall keeps_browser works ->
  browser (sessions engine works w) = Some b
  /\ launches (trace (sessions engine works w)) = launches (trace w)
  /\ pending (sessions engine works w) = [].
Proof.
  intros Hb Hp Hk. revert w Hb Hp.
  induction Hk as [|fn works Hfn Hk IH]; intros w Hb Hp;
    [split; [exact Hb|split; [reflexivity|exact Hp]]|].
  destruct (withPage_reuses_browser engine T fn w b Hb Hfn) as (Hb' & Hl & Hp').
  cbn [sessions]. rewrite Hp in Hp'.
  destruct (IH _ Hb' Hp') as (H1 & H2 & H3).
  split; [exact H1|]. split; [now rewrite H2|exact H3].
Qed.

Lemma keeps_browser_work_throws : keeps_browser work_throws.
Proof. intros p w. repeat split. Qed.

Lemma sessions_reuse_browser_witness :
  browser (sessions engine_without_pages [work_throws; work_throws; work_throws]
             world_with_browser) = Some 0
  /\ launches (trace (sessions engine_without_pages
                        [work_throws; work_throws; work_throws]
                        world_with_browser)) = 1
  /\ pending (sessions engine_without_pages
                       [work_throws; work_throws; work_throws]
                       world_with_browser) = [].
Proof.
  apply (sessions_reuse_browser engine_without_pages nat
           [work_throws; work_throws; work_throws] world_with_browser 0).
  - reflexivity.
  - reflexivity.
  - repeat constructor; exact keeps_browser_work_throws.
Defined.

(** X23.  A reconfiguration takes effect only when the pending close has
    been confirmed.  Until its continuation has run, the old handle is still
    installed and [getBrowser] hands it out without a launch; once the engine
    has confirmed the close and the continuation has run, no handle is
    installed, nothing is pending, and the next [getBrowser] launches a
    browser with the proxy of the new options. *)
Theorem reconfiguration_after_pending_close
    (engine : Engine) (o : StealthOptions) (w : World) (b : Handle) :
  browser w = Some b ->
  pending w = [] ->
  rejects engine (BrowserClose b) (trace w) = None ->
  getBrowser engine (snd (setOptions engine o w))
  = (Returned b, snd (setOptions engine o w))
  /\ pending (snd (setOptions engine o w)) = [mkTask b None]
  /\ browser (settle (snd (setOptions engine o w))) = None
  /\ pending (settle (snd (setOptions engine o w))) = []
  /\ options (settle (snd (setOptions engine o w))) = o
  /\ trace (snd (getBrowser engine (settle (snd (setOptions engine o w)))))
     = trace w ++ [BrowserClose b; Launch (JS.or_undefined (proxy o))].
Proof.
  intros Hb Hp Hr.
  unfold setOptions, close_unawaited, settle, getBrowser, perform, bind, gets,
    modify, ret.
  destruct w as [ua vp br o0 t pe]. cbn in Hb, Hp, Hr. subst br pe. cbn.
  rewrite Hr. cbn.
  destruct (rejects engine (Launch (JS.or_undefined (proxy o)))
                    (t ++ [BrowserClose b])); cbn;
    rewrite <- app_assoc; repeat split.
Qed.

Lemma reconfiguration_after_pending_close_witness :
  browser (settle (snd (setOptions reliable_engine rotating_options
                          world_with_browser))) = None
  /\ trace (snd (getBrowser reliable_engine
                   (settle (snd (setOptions reliable_engine rotating_options
                                            world_with_browser)))))
     = [Launch None; BrowserClose 0; Launch None].
Proof.
  destruct (reconfiguration_after_pending_close reliable_engine
              rotating_options world_with_browser 0 eq_refl eq_refl eq_refl)
    as (_ & _ & Hb & _ & _ & Ht).
  split; [exact Hb|exact Ht].
Defined.

Lemma collectOne_text vw vh conf textOnly i e r :
  collectOne vw vh conf textOnly i e = Some r -> text r = Some (boxedText e).
Proof.
  unfold collectOne.
  destruct (negb (visibleInViewport vw vh (boundingClientRect e)));
    [discriminate|].
  destruct (textOnly && (String.length (boxedText e) <? 2)); [discriminate|].
  intros H. injection H as <-. reflexivity.
Qed.

(** X24.  In both tiers the text of a record of the visual scanner is
    always present, at most 120 characters long and white-space normalised;
    in the primary tier it may be empty. *)
Theorem scanner_text_normalised (page : Page) (b : ExtractedElement) :
  In b (extractVisibleElementsWithBoxes page) ->
  exists t,
    text b = Some t /\ String.length t <= 120 /\ single_spaced t = true
    /\ starts_with_space t = false.
Proof.
  intros Hin. apply in_scanner in Hin.
  destruct Hin as (_ & i & e & t & _ & Hc & _).
  apply collectOne_text in Hc. change (text (raw b)) with (text b) in Hc.
  exists (boxedText e). split; [exact Hc|].
  destruct (boxedText_normalised e) as [Hl Hs].
  split; [exact Hl|]. split; [exact Hs|].
  unfold boxedText. destruct (textContent e) as [tc|]; [|reflexivity].
  cbn [option_map]. rewrite or_empty_Some.
  apply substring0_no_leading_space.
  unfold JS.replace_ws_runs.
  pose proof (trim_no_leading_space tc) as Ht.
  destruct (JS.trim tc) as [|c s]; [reflexivity|].
  cbn [starts_with_space] in Ht. cbn [JS.collapse]. rewrite Ht.
  cbn [starts_with_space]. exact Ht.
Qed.

Lemma scanner_text_normalised_witness :
  let b := hd (withSelector (projectElement 0 (node "x" [] "x" (box 0 0 0 0))))
              (extractVisibleElementsWithBoxes
                 (desktop [node "INPUT" [("name", "q")] EmptyString (box 10 10 200 24)])) in
  text b = Some EmptyString
  /\ exists t,
       text b = Some t /\ String.length t <= 120 /\ single_spaced t = true
       /\ starts_with_space t = false.
Proof.
  intros b. split; [reflexivity|].
  apply (scanner_text_normalised
           (desktop [node "INPUT" [("name", "q")] EmptyString (box 10 10 200 24)]) b).
  vm_compute. left. reflexivity.
Defined.
